(** * A shallow embedding of the WebSocket drawing relay

    [server.js] keeps two pieces of process-wide state, the [Set] of
    connected sockets and the array [drawingHistory], and reacts to four
    transport events (connection, message, close, error).  The browser side
    ([app.js]) reacts to the frames the relay sends.  Node runs every handler
    to completion before the next event is delivered, so each handler is a
    function from the state before to the state after, together with the
    list of observable actions it performed, in program order. *)

From Stdlib Require Import List String Ascii Bool Arith ZArith Lia SpecFloat DecimalString.
Import ListNotations.
Local Open Scope string_scope.
Local Open Scope list_scope.

(** ** JavaScript values *)

(** The values [JSON.parse] can produce, plus [undefined], which property
    access yields for a missing key.  Numbers are IEEE-754 doubles; a
    string is held as the bytes of its UTF-8 encoding. *)
#[local] Unset Elimination Schemes.
Inductive JSValue : Type :=
| JSUndefined
| JSNull
| JSBool (b : bool)
| JSNumber (x : spec_float)
| JSString (s : string)
| JSArray (elems : list JSValue)
| JSObject (props : list (string * JSValue)).
#[local] Set Elimination Schemes.

(** The double nearest to an integer, as for [clients.size]. *)
Definition number_of_Z (z : Z) : spec_float := binary_normalize 53 1024 z 0 false.

Definition number_of_nat (n : nat) : spec_float := number_of_Z (Z.of_nat n).

(** The integer a double stands for, if it stands for one. *)
Definition integer_of_number (x : spec_float) : option Z :=
  match x with
  | S754_zero _ => Some 0%Z
  | S754_finite s m e =>
      let sign := if s then (-1)%Z else 1%Z in
      if (0 <=? e)%Z then Some (sign * (Zpos m * 2 ^ e))%Z
      else if (Zpos m mod 2 ^ (- e) =? 0)%Z then Some (sign * (Zpos m / 2 ^ (- e)))%Z
      else None
  | _ => None
  end.

(** [s.length] counts UTF-16 code units: one for each character of the
    basic plane (a lead byte below 0xF0), two for each character beyond it
    (a lead byte from 0xF0 on), none for a continuation byte. *)
Definition code_units (b : ascii) : nat :=
  let n := nat_of_ascii b in
  if (n <? 128)%nat then 1
  else if (n <? 192)%nat then 0
  else if (n <? 240)%nat then 1
  else 2.

Fixpoint utf16_length (s : string) : nat :=
  match s with
  | EmptyString => 0
  | String b rest => code_units b + utf16_length rest
  end.

(** [ToBoolean]: what [!v] and [if (v)] look at. *)
Definition ToBoolean (v : JSValue) : bool :=
  match v with
  | JSUndefined | JSNull => false
  | JSBool b => b
  | JSNumber (S754_zero _) | JSNumber S754_nan => false
  | JSNumber _ => true
  | JSString s => negb (s =? "")
  | JSArray _ | JSObject _ => true
  end.

(** [v === s] for a string [s]: true only for the same string; no coercion. *)
Definition strict_eq_string (v : JSValue) (s : string) : bool :=
  match v with
  | JSString t => t =? s
  | _ => false
  end.

Inductive Exn : Type :=
| SyntaxError   (* JSON.parse on text that is not JSON *)
| TypeError     (* property access on undefined or null, call of a non-function *)
| WsError.      (* the error object of a transport 'error' event *)

Inductive Completion (A : Type) : Type :=
| Normal (a : A)
| Thrown (e : Exn).
Arguments Normal {A} a.
Arguments Thrown {A} e.

Fixpoint own_property (props : list (string * JSValue)) (key : string) : JSValue :=
  match props with
  | [] => JSUndefined
  | (k, v) :: rest => if k =? key then v else own_property rest key
  end.

(** [v.key] for the property names the program reads ([type], [data],
    [clientId], [count], [fromX], ...), none of which is an array index or
    found on a prototype; [length] is the one built-in name it reads. *)
Definition get_prop (v : JSValue) (key : string) : Completion JSValue :=
  match v with
  | JSUndefined | JSNull => Thrown TypeError
  | JSObject props => Normal (own_property props key)
  | JSArray elems =>
      Normal (if key =? "length" then JSNumber (number_of_nat (List.length elems))
              else JSUndefined)
  | JSString s =>
      Normal (if key =? "length" then JSNumber (number_of_nat (utf16_length s))
              else JSUndefined)
  | JSBool _ | JSNumber _ => Normal JSUndefined
  end.

(** ** Handlers as state-and-trace computations *)

(** A computation reads and writes a store [S], appends actions of type [E]
    to the trace, and either returns or throws.  What was written and done
    before a throw stays written and done. *)
Definition Js (S E A : Type) : Type := S -> Completion A * S * list E.

Section JsMonad.
Context {S E : Type}.

Definition ret {A} (a : A) : Js S E A := fun s => (Normal a, s, []).

Definition bind {A B} (m : Js S E A) (k : A -> Js S E B) : Js S E B :=
  fun s =>
    match m s with
    | (Normal a, s1, t1) =>
        match k a s1 with
        | (r, s2, t2) => (r, s2, t1 ++ t2)
        end
    | (Thrown e, s1, t1) => (Thrown e, s1, t1)
    end.

Definition throw {A} (e : Exn) : Js S E A := fun s => (Thrown e, s, []).

(** [try { body } catch (error) { handler(error) }] *)
Definition try_catch {A} (body : Js S E A) (handler : Exn -> Js S E A) : Js S E A :=
  fun s =>
    match body s with
    | (Normal a, s1, t1) => (Normal a, s1, t1)
    | (Thrown e, s1, t1) =>
        match handler e s1 with
        | (r, s2, t2) => (r, s2, t1 ++ t2)
        end
    end.

Definition lift {A} (c : Completion A) : Js S E A := fun s => (c, s, []).

Definition emit (x : E) : Js S E unit := fun s => (Normal tt, s, [x]).

Definition gets {A} (f : S -> A) : Js S E A := fun s => (Normal (f s), s, []).

Definition modify (f : S -> S) : Js S E unit := fun s => (Normal tt, f s, []).

(** [xs.forEach(f)]: in order, stopping at the first throw. *)
Fixpoint forEach {A} (xs : list A) (f : A -> Js S E unit) : Js S E unit :=
  match xs with
  | [] => ret tt
  | x :: rest => bind (f x) (fun _ => forEach rest f)
  end.

Definition result {A} (r : Completion A * S * list E) : Completion A := fst (fst r).
Definition store {A} (r : Completion A * S * list E) : S := snd (fst r).
Definition trace {A} (r : Completion A * S * list E) : list E := snd r.
End JsMonad.

Declare Scope js_scope.
Delimit Scope js_scope with js.
Notation "x <- m ;; k" := (bind m (fun x => k))
  (at level 61, m at next level, right associativity) : js_scope.
Notation "m ;; k" := (bind m (fun _ => k))
  (at level 61, right associativity) : js_scope.
Local Open Scope js_scope.

(** ** The relay: [server.js] *)

(** A socket object is known by its identity. *)
Definition Client : Type := nat.

(** [ws.readyState] *)
Inductive ReadyState : Type := CONNECTING | OPEN | CLOSING | CLOSED.

Definition is_OPEN (r : ReadyState) : bool :=
  match r with OPEN => true | _ => false end.

(** A [Set] of sockets, in insertion order (the order [forEach] visits). *)
Definition Set_has (cs : list Client) (c : Client) : bool := existsb (Nat.eqb c) cs.

Definition Set_add (cs : list Client) (c : Client) : list Client :=
  if Set_has cs c then cs else cs ++ [c].

Definition Set_delete (cs : list Client) (c : Client) : list Client :=
  filter (fun x => negb (x =? c)%nat) cs.

Definition Set_size (cs : list Client) : nat := List.length cs.

(** [const clients = new Set(); const drawingHistory = [];] *)
Record Heap : Type := mkHeap {
  clients : list Client;
  drawingHistory : list JSValue
}.

Definition startup : Heap := mkHeap [] [].

Definition MAX_HISTORY : nat := 1000.

(** What a handler does to the outside, in program order.  [ws] hands a
    frame to the socket and returns; a transmission that fails later is
    reported through the socket's 'error' event, for which the program's
    handler only logs, so a send is an action here and never a throw. *)
Inductive Effect : Type :=
| ConsoleLog (label : string) (arg : JSValue)
| ConsoleError (label : string) (error : Exn)
| Stringify (value : JSValue)
| WsSend (client : Client) (frame : string).

Definition Relay (A : Type) : Type := Js Heap Effect A.

(** [Array.prototype.push] and [shift]; [shift] on an empty array leaves it
    empty. *)
Definition Array_push {A} (a : list A) (x : A) : list A := a ++ [x].
Definition Array_shift {A} (a : list A) : list A := tl a.

(** Lines 91-97 as one function on the array: push, then drop the oldest
    entry if the array has grown past [MAX_HISTORY]. *)
Definition history_append (log : list JSValue) (event : JSValue) : list JSValue :=
  let log' := Array_push log event in
  if (MAX_HISTORY <? List.length log')%nat then Array_shift log' else log'.

Definition set_clients (f : list Client -> list Client) (h : Heap) : Heap :=
  mkHeap (f (clients h)) (drawingHistory h).

Definition set_history (f : list JSValue -> list JSValue) (h : Heap) : Heap :=
  mkHeap (clients h) (f (drawingHistory h)).

Definition history_message (log : list JSValue) : JSValue :=
  JSObject [("type", JSString "history"); ("data", JSArray log)].

Definition userCount_message (n : nat) : JSValue :=
  JSObject [("type", JSString "userCount"); ("count", JSNumber (number_of_nat n))].

Definition pong_message : JSValue := JSObject [("type", JSString "pong")].

(** What the peers get to see of a trace: the frames handed to sockets
    whose link carries them ([WsSend] is the attempt, not the arrival). *)
Definition is_send_to (c : Client) (e : Effect) : bool :=
  match e with
  | WsSend c' _ => (c' =? c)%nat
  | _ => false
  end.

Definition is_send (e : Effect) : bool :=
  match e with
  | WsSend _ _ => true
  | _ => false
  end.

Definition is_Stringify (e : Effect) : bool :=
  match e with
  | Stringify _ => true
  | _ => false
  end.

Definition delivered (link_up : Client -> bool) (t : list Effect) : list Effect :=
  filter (fun e => match e with WsSend c _ => link_up c | _ => false end) t.

(** The sends of one broadcast: the open members, in registry order. *)
Definition fan_out (readyState : Client -> ReadyState) (message : string)
    (members : list Client) : list Effect :=
  map (fun c => WsSend c message) (filter (fun c => is_OPEN (readyState c)) members).

(** ** The browser side: [handleMessage] of [DrawingApp] *)

Module App.
(** The one field of [this] that [handleMessage] reads. *)
Record DrawingApp : Type := mkApp { clientId : string }.

(** Calls on the canvas context, the document and the console. *)
Inductive UiEffect : Type :=
| Log (label : string) (args : list JSValue)
| CtxBeginPath
| CtxMoveTo (x y : JSValue)
| CtxLineTo (x y : JSValue)
| CtxStrokeStyle (color : JSValue)
| CtxLineWidth (size : JSValue)
| CtxLineCap (cap : string)
| CtxStroke
| CtxClearRect
| SetUserCountText (count : JSValue).

Definition Ui (A : Type) : Type := Js DrawingApp UiEffect A.

(** [drawLine(data)] *)
Definition drawLine (data : JSValue) : Ui unit :=
  emit CtxBeginPath ;;
  fromX <- lift (get_prop data "fromX") ;;
  fromY <- lift (get_prop data "fromY") ;;
  emit (CtxMoveTo fromX fromY) ;;
  toX <- lift (get_prop data "toX") ;;
  toY <- lift (get_prop data "toY") ;;
  emit (CtxLineTo toX toY) ;;
  color <- lift (get_prop data "color") ;;
  emit (CtxStrokeStyle color) ;;
  size <- lift (get_prop data "size") ;;
  emit (CtxLineWidth size) ;;
  emit (CtxLineCap "round") ;;
  emit CtxStroke.

(** [clearCanvas()] *)
Definition clearCanvas : Ui unit :=
  emit CtxClearRect ;;
  emit (Log "Canvas cleared" []).

(** [message.data.forEach(drawData => ...)]: only an array has [forEach]. *)
Definition forEach_value (data : JSValue) (f : JSValue -> Ui unit) : Ui unit :=
  match data with
  | JSArray elems => forEach elems f
  | _ => throw TypeError
  end.

(** [handleMessage(message)] *)
Definition handleMessage (message : JSValue) : Ui unit :=
  type <- lift (get_prop message "type") ;;
  if strict_eq_string type "draw" then
    data <- lift (get_prop message "data") ;;
    id <- lift (get_prop data "clientId") ;;
    own <- gets clientId ;;
    if negb (ToBoolean id) || negb (strict_eq_string id own)
    then drawLine data
    else ret tt
  else if strict_eq_string type "clear" then
    emit (Log "Received clear command from server" []) ;;
    clearCanvas
  else if strict_eq_string type "history" then
    data <- lift (get_prop message "data") ;;
    len <- lift (get_prop data "length") ;;
    emit (Log "Received drawing history:" [len; JSString "items"]) ;;
    forEach_value data drawLine
  else if strict_eq_string type "userCount" then
    count <- lift (get_prop message "count") ;;
    emit (SetUserCountText count) ;;
    emit (Log "User count updated:" [count])
  else if strict_eq_string type "pong" then
    emit (Log "Heartbeat response received" [])
  else
    emit (Log "Unknown message type:" [type]).

End App.

(** ** A concrete codec for the examples *)

(** A printer in the shape of [JSON.stringify] (quotes left out) and a
    reader that inverts it on a small vocabulary of frames; every other
    text is not JSON to it. *)
Definition show_Z (z : Z) : string := NilZero.string_of_int (Z.to_int z).

Definition show_number (x : spec_float) : string :=
  match x with
  | S754_zero s => if s then "-0" else "0"
  | S754_infinity s => if s then "-Infinity" else "Infinity"
  | S754_nan => "NaN"
  | S754_finite s m e =>
      String.append (if s then "-" else "")
        (String.append (show_Z (Zpos m)) (String.append "p" (show_Z e)))
  end.

Fixpoint show (v : JSValue) : string :=
  match v with
  | JSUndefined | JSNull => "null"
  | JSBool b => if b then "true" else "false"
  | JSNumber x => show_number x
  | JSString s => s
  | JSArray elems =>
      String.append "[" (String.append (String.concat "," (map show elems)) "]")
  | JSObject props =>
      String.append "{"
        (String.append
           (String.concat ","
              (map (fun p => match p with
                             | (k, x) => String.append k (String.append ":" (show x))
                             end) props)) "}")
  end.

Definition segment (id : string) : JSValue :=
  JSObject [("fromX", JSNumber (number_of_Z 1)); ("fromY", JSNumber (number_of_Z 2));
            ("toX", JSNumber (number_of_Z 3)); ("toY", JSNumber (number_of_Z 4));
            ("color", JSString "#000000"); ("size", JSNumber (number_of_Z 3));
            ("clientId", JSString id)].

Definition draw_message (event : JSValue) : JSValue :=
  JSObject [("type", JSString "draw"); ("data", event)].

Definition clear_message : JSValue := JSObject [("type", JSString "clear")].
Definition ping_message : JSValue := JSObject [("type", JSString "ping")].
Definition zoom_message : JSValue := JSObject [("type", JSString "zoom")].

Definition vocabulary : list JSValue :=
  [draw_message (segment "a"); draw_message (segment "b");
   clear_message; ping_message; zoom_message; JSNull].

Definition read (text : string) : option JSValue :=
  find (fun v => show v =? text) vocabulary.

Definition draw_frame : string := show (draw_message (segment "a")).
Definition clear_frame : string := show clear_message.
Definition ping_frame : string := show ping_message.

(** Sockets 1 and 2 registered, nothing drawn yet. *)
Definition two_members : Heap := mkHeap [1; 2] [].

(** Sockets 1 and 2 registered, one segment in the log. *)
Definition two_members_one_segment : Heap := mkHeap [1; 2] [segment "a"].

Definition all_open (c : Client) : ReadyState := OPEN.

(** Socket 2 has begun its closing handshake; the others are open. *)
Definition two_closing (c : Client) : ReadyState :=
  if (c =? 2)%nat then CLOSING else OPEN.

(** ** Derived notions used in the statements *)

(** The log after the relay has appended [events], one by one, to an empty
    array. *)
Definition ingest (events : list JSValue) : list JSValue :=
  fold_left history_append events [].

(** The [type] of a frame, when the frame is JSON and has one to read. *)
Definition discriminant (JSON_parse : string -> option JSValue) (frame : string)
    : option JSValue :=
  match JSON_parse frame with
  | Some data =>
      match get_prop data "type" with
      | Normal t => Some t
      | Thrown _ => None
      end
  | None => None
  end.

(** The three discriminants with a [case] in the relay's [switch]. *)
Definition recognized (t : JSValue) : bool :=
  strict_eq_string t "draw" || strict_eq_string t "clear" || strict_eq_string t "ping".

Definition decodes_as_Message (JSON_parse : string -> option JSValue) (frame : string)
    : bool :=
  match discriminant JSON_parse frame with
  | Some t => recognized t
  | None => false
  end.

Definition is_diagnostic (e : Effect) : bool :=
  match e with
  | ConsoleLog _ _ | ConsoleError _ _ => true
  | _ => false
  end.


(** ** The browser side: pointer input, the socket and the heartbeat *)

Module Pen.
(** The fields of a mouse event and of [getBoundingClientRect()] that
    [getMousePos] reads. *)
Record MouseEvent : Type := mkMouse { clientX : spec_float; clientY : spec_float }.
Record DOMRect : Type := mkRect { rect_left : spec_float; rect_top : spec_float }.

(** [this]: the fields the methods below read and write.  [ws] is null or a
    socket; [heartbeatInterval] is undefined or the id [setInterval] gave. *)
Record State : Type := mkState {
  self : App.DrawingApp;
  isDrawing : bool;
  currentColor : JSValue;
  currentSize : JSValue;
  messageCount : nat;
  ws : option Client;
  lastX : JSValue;
  lastY : JSValue;
  heartbeatInterval : option nat
}.

(** The fields as the constructor leaves them before it connects. *)
Definition constructed (id : string) : State :=
  mkState (App.mkApp id) false (JSString "#000000") (JSNumber (number_of_Z 3)) 0
          None JSUndefined JSUndefined None.

Definition set_self (a : App.DrawingApp) (s : State) : State :=
  mkState a (isDrawing s) (currentColor s) (currentSize s) (messageCount s) (ws s)
          (lastX s) (lastY s) (heartbeatInterval s).

Definition set_isDrawing (b : bool) (s : State) : State :=
  mkState (self s) b (currentColor s) (currentSize s) (messageCount s) (ws s)
          (lastX s) (lastY s) (heartbeatInterval s).

Definition set_currentColor (v : JSValue) (s : State) : State :=
  mkState (self s) (isDrawing s) v (currentSize s) (messageCount s) (ws s)
          (lastX s) (lastY s) (heartbeatInterval s).

Definition set_currentSize (v : JSValue) (s : State) : State :=
  mkState (self s) (isDrawing s) (currentColor s) v (messageCount s) (ws s)
          (lastX s) (lastY s) (heartbeatInterval s).

Definition set_messageCount (n : nat) (s : State) : State :=
  mkState (self s) (isDrawing s) (currentColor s) (currentSize s) n (ws s)
          (lastX s) (lastY s) (heartbeatInterval s).

Definition set_ws (w : option Client) (s : State) : State :=
  mkState (self s) (isDrawing s) (currentColor s) (currentSize s) (messageCount s) w
          (lastX s) (lastY s) (heartbeatInterval s).

Definition set_last (x y : JSValue) (s : State) : State :=
  mkState (self s) (isDrawing s) (currentColor s) (currentSize s) (messageCount s) (ws s)
          x y (heartbeatInterval s).

Definition set_heartbeatInterval (i : option nat) (s : State) : State :=
  mkState (self s) (isDrawing s) (currentColor s) (currentSize s) (messageCount s) (ws s)
          (lastX s) (lastY s) i.

(** Calls on the outside world: the canvas, document and console calls of
    [App], and those on the socket, the DOM and the timers. *)
Inductive Action : Type :=
| Ui (e : App.UiEffect)
| Serialize (value : JSValue)
| SocketSend (socket : Client) (frame : string)
| NewWebSocket (url : string)
| SetTextContent (element : string) (text : JSValue)
| SetClassName (element : string) (name : string)
| ConsoleWarn (label : string)
| ConsoleErr (label : string)
| SetInterval (ms : Z)
| ClearInterval (id : nat)
| SetTimeout (ms : Z)
| PreventDefault.

Definition Page (A : Type) : Type := Js State Action A.

(** A method of [App] run on [this]. *)
Definition ui {A} (m : App.Ui A) : Page A :=
  fun s =>
    match m (self s) with
    | (r, a, t) => (r, set_self a s, map Ui t)
    end.

Definition log (label : string) (args : list JSValue) : Page unit :=
  emit (Ui (App.Log label args)).

(** [getMousePos(e)] *)
Definition getMousePos (rect : DOMRect) (e : MouseEvent) : JSValue * JSValue :=
  (JSNumber (SFsub 53 1024 (clientX e) (rect_left rect)),
   JSNumber (SFsub 53 1024 (clientY e) (rect_top rect))).

Definition pos_object (pos : JSValue * JSValue) : JSValue :=
  JSObject [("x", fst pos); ("y", snd pos)].

(** The object literal [drawData] of [draw(e)]. *)
Definition drawData (s : State) (pos : JSValue * JSValue) (now : spec_float) : JSValue :=
  JSObject [("fromX", lastX s); ("fromY", lastY s);
            ("toX", fst pos); ("toY", snd pos);
            ("color", currentColor s); ("size", currentSize s);
            ("timestamp", JSNumber now);
            ("clientId", JSString (App.clientId (self s)))].

(** The truthiness of [this.heartbeatInterval]. *)
Definition interval_set (i : option nat) : option nat :=
  match i with
  | Some id => if (id =? 0)%nat then None else Some id
  | None => None
  end.

Section Methods.
Variable JSON_parse : string -> option JSValue.
Variable JSON_stringify : JSValue -> string.
(** The ready state sockets report, and where the canvas lies on the page,
    while the method runs. *)
Variable readyState : Client -> ReadyState.
Variable rect : DOMRect.

(** [sendMessage(message)] *)
Definition sendMessage (message : JSValue) : Page unit :=
  socket <- gets ws ;;
  match socket with
  | Some w =>
      if is_OPEN (readyState w) then
        emit (Serialize message) ;;
        emit (SocketSend w (JSON_stringify message)) ;;
        modify (fun s => set_messageCount (messageCount s + 1) s) ;;
        n <- gets messageCount ;;
        emit (SetTextContent "message-count" (JSNumber (number_of_nat n)))
      else emit (ConsoleWarn "Cannot send message - WebSocket not connected")
  | None => emit (ConsoleWarn "Cannot send message - WebSocket not connected")
  end.

(** [startDrawing(e)] *)
Definition startDrawing (e : MouseEvent) : Page unit :=
  modify (set_isDrawing true) ;;
  modify (set_last (fst (getMousePos rect e)) (snd (getMousePos rect e))) ;;
  log "Started drawing at:" [pos_object (getMousePos rect e)].

(** [draw(e)]; [now] is what [Date.now()] returns. *)
Definition draw (e : MouseEvent) (now : spec_float) : Page unit :=
  drawing <- gets isDrawing ;;
  if negb drawing then ret tt
  else
    data <- gets (fun s => drawData s (getMousePos rect e) now) ;;
    ui (App.drawLine data) ;;
    sendMessage (JSObject [("type", JSString "draw"); ("data", data)]) ;;
    modify (set_last (fst (getMousePos rect e)) (snd (getMousePos rect e))).

(** [stopDrawing()] *)
Definition stopDrawing : Page unit :=
  drawing <- gets isDrawing ;;
  if drawing then
    log "Stopped drawing" [] ;;
    modify (set_isDrawing false)
  else ret tt.

(** [handleTouch(e)]: the first touch point becomes a mouse event of the
    matching type, dispatched on the canvas, whose listeners are the three
    methods above. *)
Definition handleTouch (type : string) (touches : list MouseEvent) (now : spec_float)
    : Page unit :=
  emit PreventDefault ;;
  match touches with
  | [] => throw TypeError
  | touch :: _ =>
      if (type =? "touchstart")%string then startDrawing touch
      else if (type =? "touchmove")%string then draw touch now
      else stopDrawing
  end.

(** The three listeners [setupControls] installs. *)
Definition on_color_change (value : string) : Page unit :=
  modify (set_currentColor (JSString value)) ;;
  log "Color changed to:" [JSString value].

Definition on_brush_input (value : string) : Page unit :=
  modify (set_currentSize (JSString value)) ;;
  emit (SetTextContent "brush-size-display" (JSString (String.append value "px"))) ;;
  log "Brush size changed to:" [JSString value].

Definition on_clear_click : Page unit :=
  log "Clear button clicked" [] ;;
  ui App.clearCanvas ;;
  sendMessage (JSObject [("type", JSString "clear")]).

(** [updateConnectionStatus(connected)] *)
Definition updateConnectionStatus (connected : bool) : Page unit :=
  if connected then
    emit (SetTextContent "connection-status" (JSString "Connected")) ;;
    emit (SetClassName "connection-status" "connected")
  else
    emit (SetTextContent "connection-status" (JSString "Disconnected")) ;;
    emit (SetClassName "connection-status" "disconnected").

(** [startHeartbeat()]; [id] is what [setInterval] returns. *)
Definition startHeartbeat (id : nat) : Page unit :=
  log "Starting heartbeat" [] ;;
  emit (SetInterval 30000%Z) ;;
  modify (set_heartbeatInterval (Some id)).

(** The callback [startHeartbeat] hands to [setInterval]. *)
Definition heartbeat_tick : Page unit :=
  sendMessage (JSObject [("type", JSString "ping")]) ;;
  log "Heartbeat ping sent" [].

(** [stopHeartbeat()] *)
Definition stopHeartbeat : Page unit :=
  log "Stopping heartbeat" [] ;;
  i <- gets heartbeatInterval ;;
  match interval_set i with
  | Some id => emit (ClearInterval id)
  | None => ret tt
  end.

(** [connectWebSocket()], up to the installation of the four socket
    handlers below; [socket] is the object [new WebSocket] returns. *)
Definition connectWebSocket (protocol host : string) (socket : Client) : Page unit :=
  let wsUrl :=
    String.append (if (protocol =? "https:")%string then "wss:" else "ws:")
                  (String.append "//" (String.append host "/ws")) in
  emit (SetTextContent "ws-url" (JSString wsUrl)) ;;
  log "Connecting to WebSocket:" [JSString wsUrl] ;;
  emit (NewWebSocket wsUrl) ;;
  modify (set_ws (Some socket)).

(** [this.ws.onopen] *)
Definition onopen (id : nat) : Page unit :=
  log "✅ Connected to WebSocket server" [] ;;
  updateConnectionStatus true ;;
  startHeartbeat id.

(** [this.ws.onmessage] *)
Definition onmessage (data : string) : Page unit :=
  match JSON_parse data with
  | Some message => ui (App.handleMessage message)
  | None => throw SyntaxError
  end.

(** [this.ws.onclose] *)
Definition onclose : Page unit :=
  log "❌ Disconnected from WebSocket server" [] ;;
  updateConnectionStatus false ;;
  stopHeartbeat ;;
  log "Will attempt to reconnect in 3 seconds..." [] ;;
  emit (SetTimeout 3000%Z).

(** [this.ws.onerror] *)
Definition onerror : Page unit :=
  emit (ConsoleErr "WebSocket error:").
End Methods.

(** What the browser delivers to the page, one at a time. *)
Inductive Input : Type :=
| Mousedown (e : MouseEvent)
| Mousemove (e : MouseEvent) (now : spec_float)
| Mouseup
| Mouseleave
| Touchstart (touches : list MouseEvent) (now : spec_float)
| Touchmove (touches : list MouseEvent) (now : spec_float)
| Touchend
| ColorChange (value : string)
| BrushInput (value : string)
| ClearClick
| WsOpen (timer : nat)
| WsMessage (data : string)
| WsClose
| WsError
| HeartbeatTick
| ReconnectTimer (protocol host : string) (socket : Client).

Definition listener (JSON_parse : string -> option JSValue)
    (JSON_stringify : JSValue -> string)
    (readyState : Client -> ReadyState) (rect : DOMRect) (i : Input) : Page unit :=
  match i with
  | Mousedown e => startDrawing rect e
  | Mousemove e now => draw JSON_stringify readyState rect e now
  | Mouseup | Mouseleave | Touchend => stopDrawing
  | Touchstart touches now =>
      handleTouch JSON_stringify readyState rect "touchstart" touches now
  | Touchmove touches now =>
      handleTouch JSON_stringify readyState rect "touchmove" touches now
  | ColorChange value => on_color_change value
  | BrushInput value => on_brush_input value
  | ClearClick => on_clear_click JSON_stringify readyState
  | WsOpen timer => onopen timer
  | WsMessage data => onmessage JSON_parse data
  | WsClose => onclose
  | WsError => onerror
  | HeartbeatTick => heartbeat_tick JSON_stringify readyState
  | ReconnectTimer protocol host socket => connectWebSocket protocol host socket
  end.

(** The page's event loop.  An exception that escapes a listener is
    reported by the browser and the page goes on with the next event. *)
Fixpoint run (JSON_parse : string -> option JSValue)
    (JSON_stringify : JSValue -> string)
    (evs : list ((Client -> ReadyState) * DOMRect * Input)) (s : State)
    : State * list Action :=
  match evs with
  | [] => (s, [])
  | (readyState, rect, i) :: rest =>
      match listener JSON_parse JSON_stringify readyState rect i s with
      | (_, s1, t1) =>
          match run JSON_parse JSON_stringify rest s1 with
          | (s2, t2) => (s2, t1 ++ t2)
          end
      end
  end.

Definition is_SocketSend (a : Action) : bool :=
  match a with
  | SocketSend _ _ => true
  | _ => false
  end.

(** The calls on the canvas context among the actions, in order. *)
Definition is_canvas_call (e : App.UiEffect) : bool :=
  match e with
  | App.Log _ _ | App.SetUserCountText _ => false
  | _ => true
  end.

Definition canvas_calls (t : list Action) : list App.UiEffect :=
  flat_map (fun a => match a with
                     | Ui e => if is_canvas_call e then [e] else []
                     | _ => []
                     end) t.
End Pen.

(** The seven canvas calls that draw one segment. *)
Definition segment_calls (fromX fromY toX toY color size : JSValue) : list App.UiEffect :=
  [App.CtxBeginPath; App.CtxMoveTo fromX fromY; App.CtxLineTo toX toY;
   App.CtxStrokeStyle color; App.CtxLineWidth size; App.CtxLineCap "round";
   App.CtxStroke].

(** [v] is neither undefined nor null, so its properties can be read. *)
Definition readable (v : JSValue) : bool :=
  match v with
  | JSUndefined | JSNull => false
  | _ => true
  end.


Definition sends_to (c : Client) (t : list Effect) : nat :=
  List.length (filter (is_send_to c) t).

(** [v.key] where the read cannot throw; undefined where it would. *)
Definition field (v : JSValue) (key : string) : JSValue :=
  match get_prop v key with
  | Normal x => x
  | Thrown _ => JSUndefined
  end.



(** The canvas calls [drawLine(data)] makes for a readable [data]. *)
Definition segment_of (data : JSValue) : list App.UiEffect :=
  segment_calls (field data "fromX") (field data "fromY")
                (field data "toX") (field data "toY")
                (field data "color") (field data "size").


(** The canvas calls for the segments joining consecutive points. *)
Fixpoint polyline (color size : JSValue) (pts : list (JSValue * JSValue))
    : list App.UiEffect :=
  match pts with
  | [] => []
  | p :: rest =>
      match rest with
      | [] => []
      | q :: _ =>
          segment_calls (fst p) (snd p) (fst q) (snd q) color size
          ++ polyline color size rest
      end
  end.

(** Every run of a computation relates the store before, the actions
    performed and the store after by [R]. *)
Definition relates {S E A : Type} (R : S -> list E -> S -> Prop) (m : Js S E A) : Prop :=
  forall s, R s (trace (m s)) (store (m s)).

(** A computation leaves the part [f] of the store as it found it. *)
Definition preserves {S E A X : Type} (f : S -> X) (m : Js S E A) : Prop :=
  forall s, f (store (m s)) = f s.

(** A computation performs no action that [p] picks out. *)
Definition never {S E A : Type} (p : E -> bool) (m : Js S E A) : Prop :=
  forall s, filter p (trace (m s)) = [].

(** The socket [sendMessage] would use: [this.ws] when it is set and open. *)
Definition open_socket (readyState : Client -> ReadyState) (s : Pen.State)
    : option Client :=
  match Pen.ws s with
  | Some w => if is_OPEN (readyState w) then Some w else None
  | None => None
  end.

Definition sent (t : list Pen.Action) : nat :=
  List.length (filter Pen.is_SocketSend t).

(** The counter grows by the number of frames handed to the socket. *)
Definition accounted {A : Type} (m : Pen.Page A) : Prop :=
  forall s, Pen.messageCount (store (m s)) = Pen.messageCount s + sent (trace (m s)).

Definition is_canvas_action (a : Pen.Action) : bool :=
  match a with
  | Pen.Ui e => Pen.is_canvas_call e
  | _ => false
  end.

Definition is_WsOpen (i : Pen.Input) : bool :=
  match i with
  | Pen.WsOpen _ => true
  | _ => false
  end.

Definition draw_payload (data : JSValue) : JSValue :=
  JSObject [("type", JSString "draw"); ("data", data)].

(** A mouse move as the page sees it: the ready states and the canvas
    rectangle at that moment, the event, and the clock. *)
Definition Move : Type :=
  ((Client -> ReadyState) * Pen.DOMRect * Pen.MouseEvent * spec_float)%type.

Definition as_mousemove (m : Move) : (Client -> ReadyState) * Pen.DOMRect * Pen.Input :=
  (fst (fst (fst m)), snd (fst (fst m)), Pen.Mousemove (snd (fst m)) (snd m)).

Definition point_of (m : Move) : JSValue * JSValue :=
  Pen.getMousePos (snd (fst (fst m))) (snd (fst m)).

Definition clear_payload : JSValue := JSObject [("type", JSString "clear")].
Definition ping_payload : JSValue := JSObject [("type", JSString "ping")].

(** A draw message with no data field. *)
Definition bare_draw : JSValue := JSObject [("type", JSString "draw")].

(** The example reader, taught one more message. *)
Definition read_also (v : JSValue) (text : string) : option JSValue :=
  if (text =? show v)%string then Some v else read text.

(** A page with socket 1, drawing, last at the origin. *)
Definition pen_at_origin (id : string) : Pen.State :=
  Pen.mkState (App.mkApp id) true (JSString "#000000") (JSNumber (number_of_Z 3)) 0
              (Some 1) (JSNumber (number_of_Z 0)) (JSNumber (number_of_Z 0)) None.

Definition origin_rect : Pen.DOMRect := Pen.mkRect (number_of_Z 0) (number_of_Z 0).

Definition click_at (x y : Z) : Pen.MouseEvent := Pen.mkMouse (number_of_Z x) (number_of_Z y).

Section Server.
(** The JSON codec of the runtime: [JSON.parse] returns a value or throws
    [SyntaxError]; [JSON.stringify] of a message object is its wire text. *)
Variable JSON_parse : string -> option JSValue.
Variable JSON_stringify : JSValue -> string.

Definition parse (text : string) : Relay JSValue :=
  match JSON_parse text with
  | Some v => ret v
  | None => throw SyntaxError
  end.

Definition stringify (v : JSValue) : Relay string :=
  emit (Stringify v) ;; ret (JSON_stringify v).

Section Handlers.
(** The state each socket's transport reports while the handler runs. *)
Variable readyState : Client -> ReadyState.

Definition send_if_open (message : string) (client : Client) : Relay unit :=
  if is_OPEN (readyState client) then emit (WsSend client message) else ret tt.

(** [function broadcastToAll(data)] *)
Definition broadcastToAll (data : JSValue) : Relay unit :=
  message <- stringify data ;;
  members <- gets clients ;;
  forEach members (send_if_open message).

(** [function broadcastUserCount()] *)
Definition broadcastUserCount : Relay unit :=
  size <- gets (fun h => Set_size (clients h)) ;;
  message <- stringify (userCount_message size) ;;
  members <- gets clients ;;
  forEach members (send_if_open message).

(** [wss.on('connection', (ws) => ...)], up to the registration of the
    per-socket handlers below. *)
Definition on_connection (ws : Client) : Relay unit :=
  size <- gets (fun h => Set_size (clients h)) ;;
  emit (ConsoleLog "New client connected. Total clients:"
                   (JSNumber (number_of_nat (size + 1)))) ;;
  modify (set_clients (fun cs => Set_add cs ws)) ;;
  log <- gets drawingHistory ;;
  (if (0 <? List.length log)%nat then
     message <- stringify (history_message log) ;;
     emit (WsSend ws message)
   else ret tt) ;;
  broadcastUserCount.

(** The [switch (data.type)] of the message handler. *)
Definition dispatch (ws : Client) (data : JSValue) : Relay unit :=
  type <- lift (get_prop data "type") ;;
  if strict_eq_string type "draw" then
    event <- lift (get_prop data "data") ;;
    modify (set_history (fun log => Array_push log event)) ;;
    len <- gets (fun h => List.length (drawingHistory h)) ;;
    (if (MAX_HISTORY <? len)%nat then modify (set_history Array_shift) else ret tt) ;;
    broadcastToAll data
  else if strict_eq_string type "clear" then
    modify (set_history (fun _ => [])) ;;
    broadcastToAll data
  else if strict_eq_string type "ping" then
    message <- stringify pong_message ;;
    emit (WsSend ws message)
  else
    emit (ConsoleLog "Unknown message type:" type).

(** [ws.on('message', (message) => { try { ... } catch (error) { ... } })] *)
Definition on_message (ws : Client) (message : string) : Relay unit :=
  try_catch
    (data <- parse message ;; dispatch ws data)
    (fun error => emit (ConsoleError "Error processing message:" error)).

(** [ws.on('close', () => ...)] *)
Definition on_close (ws : Client) : Relay unit :=
  size <- gets (fun h => Set_size (clients h)) ;;
  emit (ConsoleLog "Client disconnected. Remaining clients:"
                   (JSNumber (number_of_Z (Z.of_nat size - 1)))) ;;
  modify (set_clients (fun cs => Set_delete cs ws)) ;;
  broadcastUserCount.

(** [ws.on('error', (error) => ...)] *)
Definition on_error (ws : Client) : Relay unit :=
  emit (ConsoleError "WebSocket error:" WsError).
End Handlers.

(** The events the transport delivers, one at a time. *)
Inductive Event : Type :=
| Connection (ws : Client)
| Message (ws : Client) (message : string)
| Close (ws : Client)
| Error (ws : Client).

Definition handle (readyState : Client -> ReadyState) (ev : Event) : Relay unit :=
  match ev with
  | Connection ws => on_connection readyState ws
  | Message ws message => on_message readyState ws message
  | Close ws => on_close readyState ws
  | Error ws => on_error ws
  end.

(** The event loop: each event comes with the ready states as they are
    when its handler runs. *)
Fixpoint run (evs : list ((Client -> ReadyState) * Event)) : Relay unit :=
  match evs with
  | [] => ret tt
  | (readyState, ev) :: rest => handle readyState ev ;; run rest
  end.

(** ** Facts about values and arrays *)

Lemma digits2_pos_lower (m : positive) :
  (2 ^ (Zpos (digits2_pos m) - 1) <= Zpos m)%Z.
Proof.
  induction m as [m IH | m IH |]; cbn [digits2_pos]; try (simpl; lia).
  - rewrite Pos2Z.inj_succ.
    replace (Z.succ (Zpos (digits2_pos m)) - 1)%Z
      with (Z.succ (Zpos (digits2_pos m) - 1)) by lia.
    rewrite Z.pow_succ_r by lia. lia.
  - rewrite Pos2Z.inj_succ.
    replace (Z.succ (Zpos (digits2_pos m)) - 1)%Z
      with (Z.succ (Zpos (digits2_pos m) - 1)) by lia.
    rewrite Z.pow_succ_r by lia. lia.
Qed.

Lemma digits2_pos_le_53 (m : positive) :
  (Zpos m < 2 ^ 53)%Z -> (Zpos (digits2_pos m) <= 53)%Z.
Proof.
  intros Hlt. pose proof (digits2_pos_lower m) as Hlow.
  destruct (Z_le_gt_dec (Zpos (digits2_pos m)) 53) as [H | H]; [exact H|].
  exfalso.
  assert (2 ^ 53 <= 2 ^ (Zpos (digits2_pos m) - 1))%Z by (apply Z.pow_le_mono_r; lia).
  lia.
Qed.

Lemma iter_xO_value (m k : positive) :
  Zpos (Pos.iter xO m k) = (Zpos m * 2 ^ Zpos k)%Z.
Proof.
  induction k as [|k IH] using Pos.peano_ind.
  - simpl. lia.
  - rewrite Pos.iter_succ, Pos2Z.inj_succ, Z.pow_succ_r by lia.
    rewrite Pos2Z.inj_xO, IH. lia.
Qed.

Lemma iter_xO_digits (m k : positive) :
  digits2_pos (Pos.iter xO m k) = (digits2_pos m + k)%positive.
Proof.
  induction k as [|k IH] using Pos.peano_ind.
  - simpl. lia.
  - rewrite Pos.iter_succ. cbn [digits2_pos]. rewrite IH. lia.
Qed.

(** A mantissa of 53 bits with an exponent in range is left as it is. *)
Lemma binary_round_aux_canonical (m : positive) (e : Z) :
  Zpos (digits2_pos m) = 53%Z -> (-1074 <= e <= 971)%Z ->
  binary_round_aux 53 1024 false (Zpos m) e loc_Exact = S754_finite false m e.
Proof.
  intros Hd He.
  assert (Hshift : (Z.max (Zpos (digits2_pos m) + e - 53) (3 - 1024 - 53) - e = 0)%Z)
    by lia.
  unfold binary_round_aux, shr_fexp, fexp, emin, Zdigits2, shr_record_of_loc.
  rewrite Hshift. cbn [shr shr_m shr_r shr_s round_nearest_even loc_of_shr_record].
  rewrite Hshift. cbn [shr shr_m].
  replace (e <=? 1024 - 53)%Z with true by (symmetry; apply Z.leb_le; lia).
  reflexivity.
Qed.

(** Integers below 2^53 are represented exactly. *)
Lemma number_of_Z_exact (z : Z) :
  (0 <= z < 2 ^ 53)%Z -> integer_of_number (number_of_Z z) = Some z.
Proof.
  intros [Hlo Hhi]. destruct z as [|m|m]; [reflexivity | | lia].
  pose proof (digits2_pos_le_53 m Hhi) as Hd.
  unfold number_of_Z, binary_normalize, binary_round, shl_align, fexp, emin.
  replace (Z.max (Zpos (digits2_pos m) + 0 - 53) (3 - 1024 - 53))
    with (Zpos (digits2_pos m) - 53)%Z by lia.
  destruct (Zpos (digits2_pos m) - 53 - 0)%Z as [|k|k] eqn:Hk; [ | lia | ].
  - rewrite binary_round_aux_canonical by lia.
    unfold integer_of_number.
    replace (Zpos (digits2_pos m) - 53)%Z with 0%Z by lia.
    change (0 <=? 0)%Z with true. cbv iota. rewrite Z.pow_0_r. f_equal. lia.
  - rewrite binary_round_aux_canonical
      by (rewrite ?iter_xO_digits, ?Pos2Z.inj_add; lia).
    unfold integer_of_number.
    replace (0 <=? Zpos (digits2_pos m) - 53)%Z with false
      by (symmetry; apply Z.leb_gt; lia).
    replace (- (Zpos (digits2_pos m) - 53))%Z with (Zpos k) by lia.
    rewrite iter_xO_value.
    assert (Hpow : (2 ^ Zpos k <> 0)%Z) by (apply Z.pow_nonzero; lia).
    rewrite Z.mod_mul, Z.div_mul; try exact Hpow.
    rewrite Z.eqb_refl. reflexivity.
Qed.

Lemma number_of_nat_exact (n : nat) :
  (Z.of_nat n < 2 ^ 53)%Z -> integer_of_number (number_of_nat n) = Some (Z.of_nat n).
Proof. intros Hn. apply number_of_Z_exact. lia. Qed.

Lemma strict_eq_string_true (v : JSValue) (s : string) :
strict_eq_string v s = true <-> v = JSString s.
Proof.
destruct v; simpl; try (split; [discriminate | intros H; inversion H]).
- rewrite String.eqb_eq. split; [intros ->; reflexivity | intros H; inversion H; reflexivity].
Qed.

Lemma strict_eq_string_refl (s : string) : strict_eq_string (JSString s) s = true.
Proof. apply strict_eq_string_true. reflexivity. Qed.

Lemma tl_skipn {A} (k : nat) (l : list A) : tl (skipn k l) = skipn (S k) l.
Proof.
revert l. induction k as [|k IH]; intros [|x l]; try reflexivity.
change (skipn (S k) (x :: l)) with (skipn k l). rewrite IH. reflexivity.
Qed.

(** One append, seen from the whole sequence [seen] of events appended so
  far: the log stays the window of the last [MAX_HISTORY] of them. *)
Lemma history_append_window (seen : list JSValue) (e : JSValue) :
history_append (skipn (List.length seen - MAX_HISTORY) seen) e
= skipn (List.length (seen ++ [e]) - MAX_HISTORY) (seen ++ [e]).
Proof.
unfold history_append, Array_push, Array_shift.
set (k := List.length seen - MAX_HISTORY).
assert (Hk : k <= List.length seen) by (subst k; lia).
assert (Happ : skipn k seen ++ [e] = skipn k (seen ++ [e])).
{ rewrite skipn_app. replace (k - List.length seen) with 0 by lia. reflexivity. }
rewrite Happ, length_skipn, length_app. change (List.length [e]) with 1.
destruct (Nat.ltb_spec MAX_HISTORY (List.length seen + 1 - k)) as [Hlt | Hge].
- rewrite tl_skipn. f_equal. subst k. lia.
- f_equal. subst k. lia.
Qed.

Lemma fold_history_append_window (events seen : list JSValue) :
fold_left history_append events (skipn (List.length seen - MAX_HISTORY) seen)
= skipn (List.length (seen ++ events) - MAX_HISTORY) (seen ++ events).
Proof.
revert seen. induction events as [|e events IH]; intros seen; simpl fold_left.
- rewrite app_nil_r. reflexivity.
- rewrite history_append_window, IH, <- app_assoc. reflexivity.
Qed.

Lemma history_append_evicts_at_most_one (log : list JSValue) (e : JSValue) :
history_append log e = log ++ [e] \/ history_append log e = tl (log ++ [e]).
Proof.
unfold history_append, Array_push, Array_shift.
destruct (MAX_HISTORY <? List.length (log ++ [e]))%nat; auto.
Qed.

(** C1.  Appending N events to an empty log leaves min(N, MAX_HISTORY)
  entries, MAX_HISTORY being 1000; they are the last min(N, MAX_HISTORY)
  events appended, in the order they were appended; and one append
  removes nothing or exactly the entry at the head. *)
Theorem history_is_last_MAX_HISTORY_events (events : list JSValue) :
MAX_HISTORY = 1000
/\ List.length (ingest events) = Nat.min (List.length events) MAX_HISTORY
/\ ingest events = skipn (List.length events - MAX_HISTORY) events
/\ (forall log e,
      history_append log e = log ++ [e] \/ history_append log e = tl (log ++ [e])).
Proof.
assert (Hwin : ingest events = skipn (List.length events - MAX_HISTORY) events).
{ unfold ingest. apply (fold_history_append_window events []). }
split; [reflexivity | split; [| split]].
- rewrite Hwin, length_skipn. lia.
- exact Hwin.
- apply history_append_evicts_at_most_one.
Qed.

(** ** Facts about the registry *)

Lemma Set_has_In (cs : list Client) (c : Client) : Set_has cs c = true <-> In c cs.
Proof.
unfold Set_has. rewrite existsb_exists. split.
- intros [x [Hin Heq]]. apply Nat.eqb_eq in Heq. subst. exact Hin.
- intros Hin. exists c. split; [exact Hin | apply Nat.eqb_refl].
Qed.

Lemma Set_add_In (cs : list Client) (c x : Client) :
In x (Set_add cs c) <-> x = c \/ In x cs.
Proof.
unfold Set_add. destruct (Set_has cs c) eqn:Hhas.
- apply Set_has_In in Hhas. split; [auto | intros [-> | H]; assumption].
- rewrite in_app_iff. simpl. intuition congruence.
Qed.

Lemma Set_delete_In (cs : list Client) (c x : Client) :
In x (Set_delete cs c) <-> In x cs /\ x <> c.
Proof.
unfold Set_delete. rewrite filter_In, negb_true_iff, Nat.eqb_neq. reflexivity.
Qed.

Lemma Set_add_size (cs : list Client) (c : Client) :
Set_size (Set_add cs c) = Set_size cs + (if Set_has cs c then 0 else 1).
Proof.
unfold Set_add, Set_size. destruct (Set_has cs c).
- lia.
- rewrite length_app. reflexivity.
Qed.

Lemma Set_delete_size (cs : list Client) (c : Client) :
NoDup cs ->
Set_size (Set_delete cs c) = Set_size cs - (if Set_has cs c then 1 else 0).
Proof.
unfold Set_size, Set_delete, Set_has.
induction 1 as [|x l Hx Hnd IH]; [reflexivity|].
simpl. rewrite (Nat.eqb_sym c x).
destruct (Nat.eqb_spec x c) as [-> | Hne]; simpl.
- destruct (existsb (Nat.eqb c) l) eqn:E.
  + apply existsb_exists in E. destruct E as [y [Hy Hcy]].
    apply Nat.eqb_eq in Hcy. subst y. contradiction.
  + lia.
- destruct (existsb (Nat.eqb c) l) eqn:E; [|lia].
  apply existsb_exists in E. destruct E as [y [Hy _]].
  destruct l; [contradiction | simpl in *; lia].
Qed.

Lemma Set_add_NoDup (cs : list Client) (c : Client) : NoDup cs -> NoDup (Set_add cs c).
Proof.
intros Hnd. unfold Set_add. destruct (Set_has cs c) eqn:Hhas; [exact Hnd|].
assert (Hnot : ~ In c cs).
{ intros Hin. apply Set_has_In in Hin. congruence. }
apply NoDup_rev in Hnd. rewrite <- (rev_involutive (cs ++ [c])), rev_app_distr.
apply NoDup_rev. simpl. constructor; [rewrite <- in_rev; exact Hnot | exact Hnd].
Qed.

Lemma Set_delete_NoDup (cs : list Client) (c : Client) : NoDup cs -> NoDup (Set_delete cs c).
Proof. apply NoDup_filter. Qed.

Lemma fan_out_In (rs : Client -> ReadyState) (m : string) (cs : list Client)
  (c : Client) (f : string) :
In (WsSend c f) (fan_out rs m cs) <-> f = m /\ In c cs /\ rs c = OPEN.
Proof.
unfold fan_out. rewrite in_map_iff. split.
- intros [x [Heq Hin]]. inversion Heq; subst. apply filter_In in Hin.
  destruct Hin as [Hin Hopen]. destruct (rs c); try discriminate. auto.
- intros [-> [Hin Hopen]]. exists c. split; [reflexivity|].
  apply filter_In. rewrite Hopen. auto.
Qed.

Lemma fan_out_only_sends (rs : Client -> ReadyState) (m : string) (cs : list Client) :
filter is_Stringify (fan_out rs m cs) = [].
Proof.
unfold fan_out. induction (filter (fun c => is_OPEN (rs c)) cs); simpl; auto.
Qed.

(** ** What each handler of the relay does *)

Lemma forEach_send_if_open (rs : Client -> ReadyState) (m : string)
    (cs : list Client) (h : Heap) :
  forEach cs (send_if_open rs m) h = (Normal tt, h, fan_out rs m cs).
Proof.
  unfold fan_out. induction cs as [|c cs IH]; [reflexivity|].
  simpl. unfold bind, send_if_open at 1.
  destruct (is_OPEN (rs c)); unfold emit, ret; rewrite IH; reflexivity.
Qed.

Lemma broadcastToAll_run (rs : Client -> ReadyState) (data : JSValue) (h : Heap) :
  broadcastToAll rs data h
  = (Normal tt, h, Stringify data :: fan_out rs (JSON_stringify data) (clients h)).
Proof.
  unfold broadcastToAll, stringify, bind, emit, ret, gets.
  rewrite forEach_send_if_open. reflexivity.
Qed.

Lemma broadcastUserCount_run (rs : Client -> ReadyState) (h : Heap) :
  broadcastUserCount rs h
  = (Normal tt, h,
     Stringify (userCount_message (Set_size (clients h)))
     :: fan_out rs (JSON_stringify (userCount_message (Set_size (clients h))))
          (clients h)).
Proof.
  unfold broadcastUserCount, stringify, bind, emit, ret, gets.
  rewrite forEach_send_if_open. reflexivity.
Qed.

Lemma dispatch_draw (rs : Client -> ReadyState) (ws : Client)
    (data event : JSValue) (h : Heap) :
  get_prop data "type" = Normal (JSString "draw") ->
  get_prop data "data" = Normal event ->
  dispatch rs ws data h
  = (Normal tt, set_history (fun log => history_append log event) h,
     Stringify data :: fan_out rs (JSON_stringify data) (clients h)).
Proof.
  intros Htype Hdata.
  unfold dispatch, bind, lift. rewrite Htype.
  change (strict_eq_string (JSString "draw") "draw") with true. cbv iota beta.
  rewrite Hdata. unfold modify, gets, ret. cbv iota beta.
  unfold set_history, history_append. cbn [clients drawingHistory].
  destruct (MAX_HISTORY <? List.length (Array_push (drawingHistory h) event))%nat;
    cbv iota beta; rewrite broadcastToAll_run; reflexivity.
Qed.

Lemma dispatch_clear (rs : Client -> ReadyState) (ws : Client)
    (data : JSValue) (h : Heap) :
  get_prop data "type" = Normal (JSString "clear") ->
  dispatch rs ws data h
  = (Normal tt, set_history (fun _ => []) h,
     Stringify data :: fan_out rs (JSON_stringify data) (clients h)).
Proof.
  intros Htype.
  unfold dispatch, bind, lift. rewrite Htype.
  change (strict_eq_string (JSString "clear") "draw") with false.
  change (strict_eq_string (JSString "clear") "clear") with true. cbv iota beta.
  unfold modify. rewrite broadcastToAll_run. reflexivity.
Qed.

Lemma dispatch_ping (rs : Client -> ReadyState) (ws : Client)
    (data : JSValue) (h : Heap) :
  get_prop data "type" = Normal (JSString "ping") ->
  dispatch rs ws data h
  = (Normal tt, h,
     [Stringify pong_message; WsSend ws (JSON_stringify pong_message)]).
Proof.
  intros Htype.
  unfold dispatch, bind, lift. rewrite Htype.
  change (strict_eq_string (JSString "ping") "draw") with false.
  change (strict_eq_string (JSString "ping") "clear") with false.
  change (strict_eq_string (JSString "ping") "ping") with true. cbv iota beta.
  reflexivity.
Qed.

Lemma dispatch_other (rs : Client -> ReadyState) (ws : Client)
    (data type : JSValue) (h : Heap) :
  get_prop data "type" = Normal type ->
  recognized type = false ->
  dispatch rs ws data h = (Normal tt, h, [ConsoleLog "Unknown message type:" type]).
Proof.
  intros Htype Hrec. unfold recognized in Hrec.
  apply orb_false_iff in Hrec. destruct Hrec as [Hrec Hping].
  apply orb_false_iff in Hrec. destruct Hrec as [Hdraw Hclear].
  unfold dispatch, bind, lift. rewrite Htype. cbv iota beta.
  rewrite Hdraw, Hclear, Hping. reflexivity.
Qed.

Lemma on_message_decoded (rs : Client -> ReadyState) (ws : Client)
    (frame : string) (data : JSValue) (h : Heap) (h' : Heap) (t : list Effect) :
  JSON_parse frame = Some data ->
  dispatch rs ws data h = (Normal tt, h', t) ->
  on_message rs ws frame h = (Normal tt, h', t).
Proof.
  intros Hparse Hrun.
  unfold on_message, try_catch, bind, parse. rewrite Hparse.
  unfold ret at 1. cbv iota beta. rewrite Hrun. reflexivity.
Qed.

(** A frame the relay has no [case] for leaves one line on the console
    and nothing else. *)
Lemma on_message_ignored (rs : Client -> ReadyState) (ws : Client)
    (frame : string) (h : Heap) :
  decodes_as_Message JSON_parse frame = false ->
  exists diag, is_diagnostic diag = true
               /\ on_message rs ws frame h = (Normal tt, h, [diag]).
Proof.
  unfold decodes_as_Message, discriminant. intros Hno.
  destruct (JSON_parse frame) as [data|] eqn:Hparse.
  - destruct (get_prop data "type") as [type | e] eqn:Htype.
    + exists (ConsoleLog "Unknown message type:" type). split; [reflexivity|].
      apply (on_message_decoded rs ws frame data); [exact Hparse|].
      apply dispatch_other; assumption.
    + exists (ConsoleError "Error processing message:" e). split; [reflexivity|].
      unfold on_message, try_catch, bind, parse. rewrite Hparse.
      unfold ret at 1. cbv iota beta.
      unfold dispatch, bind, lift. rewrite Htype. reflexivity.
  - exists (ConsoleError "Error processing message:" SyntaxError).
    split; [reflexivity|].
    unfold on_message, try_catch, bind, parse. rewrite Hparse. reflexivity.
Qed.

Lemma on_connection_run (rs : Client -> ReadyState) (ws : Client) (h : Heap) :
  on_connection rs ws h
  = (Normal tt, set_clients (fun cs => Set_add cs ws) h,
     ConsoleLog "New client connected. Total clients:"
                (JSNumber (number_of_nat (Set_size (clients h) + 1)))
     :: (if (0 <? List.length (drawingHistory h))%nat
         then [Stringify (history_message (drawingHistory h));
               WsSend ws (JSON_stringify (history_message (drawingHistory h)))]
         else [])
     ++ trace (broadcastUserCount rs (set_clients (fun cs => Set_add cs ws) h))).
Proof.
  unfold on_connection, bind, gets, emit, modify. cbv iota beta.
  change (drawingHistory (set_clients (fun cs => Set_add cs ws) h))
    with (drawingHistory h).
  destruct (0 <? List.length (drawingHistory h))%nat;
    unfold stringify, bind, emit, ret; cbv iota beta;
    rewrite broadcastUserCount_run; reflexivity.
Qed.

Lemma on_close_run (rs : Client -> ReadyState) (ws : Client) (h : Heap) :
  on_close rs ws h
  = (Normal tt, set_clients (fun cs => Set_delete cs ws) h,
     ConsoleLog "Client disconnected. Remaining clients:"
                (JSNumber (number_of_Z (Z.of_nat (Set_size (clients h)) - 1)))
     :: trace (broadcastUserCount rs (set_clients (fun cs => Set_delete cs ws) h))).
Proof.
  unfold on_close, bind, gets, emit, modify. cbv iota beta.
  rewrite broadcastUserCount_run. reflexivity.
Qed.

(** No handler lets an exception escape into the event loop. *)
Lemma handle_returns (rs : Client -> ReadyState) (ev : Event) (h : Heap) :
  result (handle rs ev h) = Normal tt.
Proof.
  destruct ev as [ws | ws frame | ws | ws]; simpl.
  - rewrite on_connection_run. reflexivity.
  - unfold on_message, try_catch.
    destruct (bind (parse frame) (dispatch rs ws) h) as [[[[]|e] h1] t1] eqn:E;
      reflexivity.
  - rewrite on_close_run. reflexivity.
  - reflexivity.
Qed.

Lemma run_cons (rs : Client -> ReadyState) (ev : Event)
    (rest : list ((Client -> ReadyState) * Event)) (h : Heap) :
  run ((rs, ev) :: rest) h
  = (result (run rest (store (handle rs ev h))),
     store (run rest (store (handle rs ev h))),
     trace (handle rs ev h) ++ trace (run rest (store (handle rs ev h)))).
Proof.
  simpl. unfold bind. pose proof (handle_returns rs ev h) as Hret.
  destruct (handle rs ev h) as [[r h1] t1]. unfold result in Hret. simpl in Hret.
  subst r. unfold store, result, trace. cbn [fst snd].
  destruct (run rest h1) as [[r2 h2] t2]. reflexivity.
Qed.
(** ** The message router *)

Lemma get_prop_any_key (v : JSValue) (k1 k2 : string) (x : JSValue) :
  get_prop v k1 = Normal x -> exists y, get_prop v k2 = Normal y.
Proof.
  destruct v; simpl; intros H; try discriminate; eauto.
Qed.


(** C3.  One call of broadcastToAll serializes its argument once, before
    any send; hands the text to exactly the registry members whose socket
    reports OPEN; passes over the others and carries on; returns normally
    with the state untouched.  Whether a frame then gets through on one
    socket has no bearing on the others: every open member whose link is up
    receives it. *)
Theorem broadcast_serializes_once_and_skips_not_open (rs : Client -> ReadyState)
    (data : JSValue) (h : Heap) :
  result (broadcastToAll rs data h) = Normal tt
  /\ store (broadcastToAll rs data h) = h
  /\ trace (broadcastToAll rs data h)
     = Stringify data :: fan_out rs (JSON_stringify data) (clients h)
  /\ filter is_Stringify (trace (broadcastToAll rs data h)) = [Stringify data]
  /\ (forall c f, In (WsSend c f) (trace (broadcastToAll rs data h))
                  <-> f = JSON_stringify data /\ In c (clients h) /\ rs c = OPEN)
  /\ (forall (link_up : Client -> bool) c,
        In c (clients h) -> rs c = OPEN -> link_up c = true ->
        In (WsSend c (JSON_stringify data))
           (delivered link_up (trace (broadcastToAll rs data h)))).
Proof.
  rewrite broadcastToAll_run. unfold result, store, trace. cbn [fst snd].
  assert (Hsend : forall c f,
             In (WsSend c f) (Stringify data :: fan_out rs (JSON_stringify data) (clients h))
             <-> f = JSON_stringify data /\ In c (clients h) /\ rs c = OPEN).
  { intros c f. rewrite <- fan_out_In. simpl. split; [intros [H | H] | intros H].
    - discriminate H.
    - exact H.
    - right. exact H. }
  split; [reflexivity|]. split; [reflexivity|]. split; [reflexivity|].
  split; [|split; [exact Hsend|]].
  - simpl. rewrite fan_out_only_sends. reflexivity.
  - intros link_up c Hin Hopen Hup. unfold delivered. apply filter_In. split.
    + apply Hsend. auto.
    + exact Hup.
Qed.

(** C4.  A frame that decodes to an object whose type is 'clear' empties
    the log, whatever it held, so that what is read from it afterwards is
    the empty sequence, and the relay broadcasts the re-serialized message
    over the whole registry: every member whose socket reports OPEN is
    handed it, and no one else. *)
Theorem clear_empties_history_and_fans_out (rs : Client -> ReadyState) (ws : Client)
    (frame : string) (data : JSValue) (h : Heap) :
  JSON_parse frame = Some data ->
  get_prop data "type" = Normal (JSString "clear") ->
  result (on_message rs ws frame h) = Normal tt
  /\ drawingHistory (store (on_message rs ws frame h)) = []
  /\ clients (store (on_message rs ws frame h)) = clients h
  /\ trace (on_message rs ws frame h)
     = Stringify data :: fan_out rs (JSON_stringify data) (clients h)
  /\ (forall c f, In (WsSend c f) (trace (on_message rs ws frame h))
                  <-> f = JSON_stringify data /\ In c (clients h) /\ rs c = OPEN).
Proof.
  intros Hparse Htype.
  rewrite (on_message_decoded rs ws frame data h _ _ Hparse
             (dispatch_clear rs ws data h Htype)).
  unfold result, store, trace. cbn [fst snd set_history clients drawingHistory].
  split; [reflexivity|]. split; [reflexivity|]. split; [reflexivity|].
  split; [reflexivity|].
  intros c f. rewrite <- fan_out_In. simpl. split; [intros [H | H] | intros H].
  - discriminate H.
  - exact H.
  - right. exact H.
Qed.


(** The log the relay holds after a run of draw frames is the log [ingest]
    describes: each frame appends its data with [history_append]. *)
Lemma run_draw_frames (inputs : list ((Client -> ReadyState) * Client * string))
    (events : list JSValue) (h : Heap) :
  Forall2 (fun i e => exists data,
               JSON_parse (snd i) = Some data
               /\ get_prop data "type" = Normal (JSString "draw")
               /\ get_prop data "data" = Normal e) inputs events ->
  drawingHistory
    (store (run (map (fun i => (fst (fst i), Message (snd (fst i)) (snd i))) inputs) h))
  = fold_left history_append events (drawingHistory h).
Proof.
  intros Hall. revert h.
  induction Hall as [| [[rs ws] frame] e inputs events [data [Hp [Ht Hd]]] _ IH];
    intros h; [reflexivity|].
  cbn [map fst snd fold_left]. rewrite run_cons. unfold store at 1. cbn [fst snd].
  rewrite IH. simpl handle. cbn [snd] in Hp.
  rewrite (on_message_decoded rs ws frame data h _ _ Hp
             (dispatch_draw rs ws data e h Ht Hd)).
  reflexivity.
Qed.

(** ** Connecting and disconnecting *)

Lemma Stringify_not_in_fan_out (rs : Client -> ReadyState) (m : string)
    (cs : list Client) (v : JSValue) :
  ~ In (Stringify v) (fan_out rs m cs).
Proof.
  unfold fan_out. rewrite in_map_iff. intros [c [Heq _]]. discriminate Heq.
Qed.

(** C6.  When a socket connects while the log is non-empty, the connection
    handler serializes one message of type 'history' whose data is the log
    as it is at that moment, and sends it once, to the new socket and to no
    other; the only other message of the handler is the userCount that
    follows.  In the relay's output this send comes before everything that
    later events cause, so before any draw or clear broadcast triggered by
    a message arriving after the connect. *)
Theorem history_sent_once_to_newcomer_first (rs : Client -> ReadyState) (ws : Client)
    (h : Heap) (rest : list ((Client -> ReadyState) * Event)) :
  drawingHistory h <> [] ->
  on_connection rs ws h
  = (Normal tt, set_clients (fun cs => Set_add cs ws) h,
     [ConsoleLog "New client connected. Total clients:"
                 (JSNumber (number_of_nat (Set_size (clients h) + 1)));
      Stringify (JSObject [("type", JSString "history");
                           ("data", JSArray (drawingHistory h))]);
      WsSend ws (JSON_stringify (JSObject [("type", JSString "history");
                                           ("data", JSArray (drawingHistory h))]))]
     ++ trace (broadcastUserCount rs (set_clients (fun cs => Set_add cs ws) h)))
  /\ (forall v, In (Stringify v) (trace (broadcastUserCount rs
                                          (set_clients (fun cs => Set_add cs ws) h)))
               -> v = JSObject [("type", JSString "userCount");
                                ("count", JSNumber (number_of_nat
                                                      (Set_size (Set_add (clients h) ws))))])
  /\ (forall c f, In (WsSend c f) (trace (broadcastUserCount rs
                                            (set_clients (fun cs => Set_add cs ws) h)))
                 -> f = JSON_stringify
                          (JSObject [("type", JSString "userCount");
                                     ("count", JSNumber (number_of_nat
                                                           (Set_size (Set_add (clients h) ws))))]))
  /\ trace (run ((rs, Connection ws) :: rest) h)
     = [ConsoleLog "New client connected. Total clients:"
                   (JSNumber (number_of_nat (Set_size (clients h) + 1)));
        Stringify (JSObject [("type", JSString "history");
                             ("data", JSArray (drawingHistory h))]);
        WsSend ws (JSON_stringify (JSObject [("type", JSString "history");
                                             ("data", JSArray (drawingHistory h))]))]
       ++ trace (broadcastUserCount rs (set_clients (fun cs => Set_add cs ws) h))
       ++ trace (run rest (set_clients (fun cs => Set_add cs ws) h)).
Proof.
  intros Hne.
  assert (Hlen : (0 <? List.length (drawingHistory h))%nat = true).
  { apply Nat.ltb_lt. destruct (drawingHistory h); [congruence | simpl; lia]. }
  assert (Hrun := on_connection_run rs ws h). rewrite Hlen in Hrun.
  split; [exact Hrun | split; [|split]].
  - intros v. rewrite broadcastUserCount_run. unfold trace. cbn [snd].
    intros [Heq | Hin].
    + inversion Heq. reflexivity.
    + apply Stringify_not_in_fan_out in Hin. contradiction.
  - intros c f. rewrite broadcastUserCount_run. unfold trace. cbn [snd].
    intros [Heq | Hin]; [discriminate Heq|].
    apply fan_out_In in Hin. destruct Hin as [Hf _]. exact Hf.
  - rewrite run_cons. simpl handle. rewrite Hrun. unfold trace, store.
    cbn [fst snd app]. reflexivity.
Qed.

(** C7 (amended).  Once a clear message has emptied the log, a socket that
    connects while the log is still empty is sent no history message at
    all: the connection handler serializes nothing but the userCount
    message and broadcasts it. *)
Theorem connect_after_clear_gets_no_history (rs1 rs2 : Client -> ReadyState)
    (sender ws : Client) (frame : string) (data : JSValue) (h : Heap) :
  JSON_parse frame = Some data ->
  get_prop data "type" = Normal (JSString "clear") ->
  drawingHistory (store (on_message rs1 sender frame h)) = []
  /\ trace (on_connection rs2 ws (store (on_message rs1 sender frame h)))
     = ConsoleLog "New client connected. Total clients:"
                  (JSNumber (number_of_nat (Set_size (clients h) + 1)))
       :: Stringify (userCount_message (Set_size (Set_add (clients h) ws)))
       :: fan_out rs2
            (JSON_stringify (userCount_message (Set_size (Set_add (clients h) ws))))
            (Set_add (clients h) ws)
  /\ (forall log,
        ~ In (Stringify (history_message log))
             (trace (on_connection rs2 ws (store (on_message rs1 sender frame h))))).
Proof.
  intros Hparse Htype.
  rewrite (on_message_decoded rs1 sender frame data h _ _ Hparse
             (dispatch_clear rs1 sender data h Htype)).
  unfold store at 1 2 3. cbn [fst snd].
  rewrite on_connection_run, broadcastUserCount_run.
  unfold trace. cbn [fst snd set_history set_clients clients drawingHistory].
  change (0 <? List.length (@nil JSValue))%nat with false. cbv iota. cbn [app].
  split; [reflexivity | split; [reflexivity |]].
  intros log [Heq | [Heq | Hin]]; try discriminate.
  apply Stringify_not_in_fan_out in Hin. contradiction.
Qed.

(** C8.  The connection handler registers the socket first and then
    broadcasts one message of type 'userCount' whose count is the size of
    the registry with the socket in it; the close handler removes the socket
    first and then broadcasts one whose count is the size of the registry
    without it.  Neither handler serializes any other message of that type.
    The count is the double that stands for exactly that integer (for every
    size below 2^53). *)
Theorem userCount_is_size_after_update (rs : Client -> ReadyState) (ws : Client)
    (h : Heap) :
  (clients (store (on_connection rs ws h)) = Set_add (clients h) ws
   /\ In ws (clients (store (on_connection rs ws h)))
   /\ exists pre,
       trace (on_connection rs ws h)
       = pre
         ++ Stringify
              (JSObject [("type", JSString "userCount");
                         ("count", JSNumber (number_of_nat
                                               (List.length (Set_add (clients h) ws))))])
         :: fan_out rs
              (JSON_stringify
                 (JSObject [("type", JSString "userCount");
                            ("count", JSNumber (number_of_nat
                                                  (List.length (Set_add (clients h) ws))))]))
              (Set_add (clients h) ws)
       /\ forall v, In (Stringify v) pre ->
                    get_prop v "type" <> Normal (JSString "userCount"))
  /\ (clients (store (on_close rs ws h)) = Set_delete (clients h) ws
      /\ ~ In ws (clients (store (on_close rs ws h)))
      /\ exists pre,
          trace (on_close rs ws h)
          = pre
            ++ Stringify
                 (JSObject [("type", JSString "userCount");
                            ("count", JSNumber (number_of_nat
                                                  (List.length (Set_delete (clients h) ws))))])
            :: fan_out rs
                 (JSON_stringify
                    (JSObject [("type", JSString "userCount");
                               ("count", JSNumber (number_of_nat
                                                     (List.length
                                                        (Set_delete (clients h) ws))))]))
                 (Set_delete (clients h) ws)
          /\ forall v, In (Stringify v) pre ->
                       get_prop v "type" <> Normal (JSString "userCount"))
  /\ (forall n, (Z.of_nat n < 2 ^ 53)%Z ->
                integer_of_number (number_of_nat n) = Some (Z.of_nat n)).
Proof.
  split; [|split].
  - rewrite on_connection_run, broadcastUserCount_run.
    unfold store, trace. cbn [fst snd set_clients clients].
    split; [reflexivity | split].
    + apply Set_add_In. left. reflexivity.
    + exists (ConsoleLog "New client connected. Total clients:"
                         (JSNumber (number_of_nat (Set_size (clients h) + 1)))
              :: (if (0 <? List.length (drawingHistory h))%nat
                  then [Stringify (history_message (drawingHistory h));
                        WsSend ws (JSON_stringify (history_message (drawingHistory h)))]
                  else [])).
      split.
      * rewrite <- app_comm_cons. reflexivity.
      * intros v. destruct (0 <? List.length (drawingHistory h))%nat; simpl.
        -- intros [H | [H | [H | []]]]; try discriminate H.
           inversion H. subst v. simpl. discriminate.
        -- intros [H | []]. discriminate H.
  - rewrite on_close_run, broadcastUserCount_run.
    unfold store, trace. cbn [fst snd set_clients clients].
    split; [reflexivity | split].
    + rewrite Set_delete_In. tauto.
    + exists [ConsoleLog "Client disconnected. Remaining clients:"
                         (JSNumber (number_of_Z (Z.of_nat (Set_size (clients h)) - 1)))].
      split; [reflexivity|].
      intros v [H | []]. discriminate H.
  - exact number_of_nat_exact.
Qed.

(** ** Liveness *)

(** The messages the relay ever serializes carry one of five types, none of
    them 'ping'. *)
Lemma handle_serializes_no_ping (rs : Client -> ReadyState) (ev : Event) (h : Heap)
    (v : JSValue) :
  In (Stringify v) (trace (handle rs ev h)) ->
  get_prop v "type" <> Normal (JSString "ping").
Proof.
  destruct ev as [ws | ws frame | ws | ws]; simpl handle.
  - rewrite on_connection_run, broadcastUserCount_run. unfold trace. cbn [fst snd].
    destruct (0 <? List.length (drawingHistory h))%nat; simpl;
      intros H; repeat (destruct H as [H | H]; try discriminate H);
      try (inversion H; subst; simpl; discriminate);
      apply Stringify_not_in_fan_out in H; contradiction.
  - destruct (decodes_as_Message JSON_parse frame) eqn:Hdec.
    + unfold decodes_as_Message, discriminant in Hdec.
      destruct (JSON_parse frame) as [data|] eqn:Hparse; [|discriminate].
      destruct (get_prop data "type") as [type|] eqn:Htype; [|discriminate].
      unfold recognized in Hdec.
      destruct (strict_eq_string type "draw") eqn:Hdraw.
      * apply strict_eq_string_true in Hdraw. subst type.
        destruct (get_prop_any_key data "type" "data" _ Htype) as [event Hevent].
        rewrite (on_message_decoded rs ws frame data h _ _ Hparse
                   (dispatch_draw rs ws data event h Htype Hevent)).
        unfold trace. cbn [snd]. intros [H | H].
        -- inversion H. subst v. rewrite Htype. discriminate.
        -- apply Stringify_not_in_fan_out in H. contradiction.
      * destruct (strict_eq_string type "clear") eqn:Hclear.
        -- apply strict_eq_string_true in Hclear. subst type.
           rewrite (on_message_decoded rs ws frame data h _ _ Hparse
                      (dispatch_clear rs ws data h Htype)).
           unfold trace. cbn [snd]. intros [H | H].
           ++ inversion H. subst v. rewrite Htype. discriminate.
           ++ apply Stringify_not_in_fan_out in H. contradiction.
        -- simpl in Hdec. apply strict_eq_string_true in Hdec. subst type.
           rewrite (on_message_decoded rs ws frame data h _ _ Hparse
                      (dispatch_ping rs ws data h Htype)).
           unfold trace. cbn [snd]. intros [H | [H | []]]; [|discriminate H].
           inversion H. subst v. simpl. discriminate.
    + destruct (on_message_ignored rs ws frame h Hdec) as [diag [Hdiag Hrun]].
      rewrite Hrun. unfold trace. cbn [snd]. intros [H | []]. subst diag.
      discriminate Hdiag.
  - rewrite on_close_run, broadcastUserCount_run. unfold trace. cbn [fst snd].
    intros [H | [H | H]]; try discriminate H.
    + inversion H. subst v. simpl. discriminate.
    + apply Stringify_not_in_fan_out in H. contradiction.
  - unfold on_error, emit, trace. cbn [snd]. intros [H | []]. discriminate H.
Qed.

(** C9.  A frame that decodes to an object whose type is 'ping' makes the
    relay serialize the message whose only field is type 'pong' and send it
    once, to the socket the ping came from; nothing is broadcast and neither
    the log nor the registry changes.  The relay itself never serializes a
    message of type 'ping', whatever the event and the state. *)
Theorem ping_is_answered_with_pong_to_sender (rs : Client -> ReadyState) (ws : Client)
    (frame : string) (data : JSValue) (h : Heap) :
  JSON_parse frame = Some data ->
  get_prop data "type" = Normal (JSString "ping") ->
  on_message rs ws frame h
  = (Normal tt, h,
     [Stringify (JSObject [("type", JSString "pong")]);
      WsSend ws (JSON_stringify (JSObject [("type", JSString "pong")]))])
  /\ (forall rs' ev h' v,
        In (Stringify v) (trace (handle rs' ev h')) ->
        get_prop v "type" <> Normal (JSString "ping")).
Proof.
  intros Hparse Htype. split.
  - apply (on_message_decoded rs ws frame data); [exact Hparse|].
    apply dispatch_ping. exact Htype.
  - intros rs' ev h' v. apply handle_serializes_no_ping.
Qed.
(** ** Invariants of the relay *)

(** The message handler has four behaviours and every frame gets exactly
    one of them. *)
Lemma on_message_cases (rs : Client -> ReadyState) (ws : Client) (frame : string)
    (h : Heap) :
  (exists data event,
      JSON_parse frame = Some data
      /\ get_prop data "type" = Normal (JSString "draw")
      /\ get_prop data "data" = Normal event
      /\ on_message rs ws frame h
         = (Normal tt, set_history (fun log => history_append log event) h,
            Stringify data :: fan_out rs (JSON_stringify data) (clients h)))
  \/ (exists data,
         JSON_parse frame = Some data
         /\ get_prop data "type" = Normal (JSString "clear")
         /\ on_message rs ws frame h
            = (Normal tt, set_history (fun _ => []) h,
               Stringify data :: fan_out rs (JSON_stringify data) (clients h)))
  \/ (exists data,
         JSON_parse frame = Some data
         /\ get_prop data "type" = Normal (JSString "ping")
         /\ on_message rs ws frame h
            = (Normal tt, h,
               [Stringify pong_message; WsSend ws (JSON_stringify pong_message)]))
  \/ (exists diag,
         is_diagnostic diag = true
         /\ on_message rs ws frame h = (Normal tt, h, [diag])).
Proof.
  destruct (decodes_as_Message JSON_parse frame) eqn:Hdec.
  - unfold decodes_as_Message, discriminant in Hdec.
    destruct (JSON_parse frame) as [data|] eqn:Hparse; [|discriminate].
    destruct (get_prop data "type") as [type|] eqn:Htype; [|discriminate].
    unfold recognized in Hdec.
    destruct (strict_eq_string type "draw") eqn:Hdraw.
    + apply strict_eq_string_true in Hdraw. subst type.
      destruct (get_prop_any_key data "type" "data" _ Htype) as [event Hevent].
      left. exists data, event. repeat (split; [first [assumption | reflexivity]|]).
      exact (on_message_decoded rs ws frame data h _ _ Hparse
               (dispatch_draw rs ws data event h Htype Hevent)).
    + destruct (strict_eq_string type "clear") eqn:Hclear.
      * apply strict_eq_string_true in Hclear. subst type.
        right; left. exists data. repeat (split; [first [assumption | reflexivity]|]).
        exact (on_message_decoded rs ws frame data h _ _ Hparse
                 (dispatch_clear rs ws data h Htype)).
      * simpl in Hdec. apply strict_eq_string_true in Hdec. subst type.
        right; right; left. exists data. repeat (split; [first [assumption | reflexivity]|]).
        exact (on_message_decoded rs ws frame data h _ _ Hparse
                 (dispatch_ping rs ws data h Htype)).
  - right; right; right. apply on_message_ignored. exact Hdec.
Qed.

Lemma history_append_bounded (log : list JSValue) (e : JSValue) :
  List.length log <= MAX_HISTORY -> List.length (history_append log e) <= MAX_HISTORY.
Proof.
  intros Hle. unfold history_append, Array_push, Array_shift.
  destruct (Nat.ltb_spec MAX_HISTORY (List.length (log ++ [e]))) as [Hlt | Hge].
  - rewrite length_app in Hlt. simpl in Hlt.
    destruct log as [|x log]; simpl in *; [lia|]. rewrite length_app. simpl. lia.
  - exact Hge.
Qed.

(** What one event can do to the two pieces of state. *)
Lemma handle_store (rs : Client -> ReadyState) (ev : Event) (h : Heap) :
  (clients (store (handle rs ev h)) = clients h
   \/ (exists ws, clients (store (handle rs ev h)) = Set_add (clients h) ws)
   \/ (exists ws, clients (store (handle rs ev h)) = Set_delete (clients h) ws))
  /\ (drawingHistory (store (handle rs ev h)) = drawingHistory h
      \/ drawingHistory (store (handle rs ev h)) = []
      \/ (exists e, drawingHistory (store (handle rs ev h))
                    = history_append (drawingHistory h) e)).
Proof.
  destruct ev as [ws | ws frame | ws | ws]; simpl handle.
  - rewrite on_connection_run. unfold store. cbn [fst snd set_clients clients drawingHistory].
    split; [right; left; exists ws; reflexivity | left; reflexivity].
  - destruct (on_message_cases rs ws frame h)
      as [[data [event [_ [_ [_ Hrun]]]]] | [[data [_ [_ Hrun]]]
          | [[data [_ [_ Hrun]]] | [diag [_ Hrun]]]]];
      rewrite Hrun; unfold store; cbn [fst snd set_history clients drawingHistory];
      (split; [left; reflexivity|]).
    + right; right. exists event. reflexivity.
    + right; left. reflexivity.
    + left. reflexivity.
    + left. reflexivity.
  - rewrite on_close_run. unfold store. cbn [fst snd set_clients clients drawingHistory].
    split; [right; right; exists ws; reflexivity | left; reflexivity].
  - unfold on_error, emit, store. cbn [fst snd]. split; left; reflexivity.
Qed.

(** X2.  The log never holds more than MAX_HISTORY entries: a bound that
    holds before a sequence of events still holds after it, whatever the
    events are. *)
Theorem history_stays_bounded (evs : list ((Client -> ReadyState) * Event)) (h : Heap) :
  List.length (drawingHistory h) <= MAX_HISTORY ->
  List.length (drawingHistory (store (run evs h))) <= MAX_HISTORY.
Proof.
  revert h. induction evs as [|[rs ev] rest IH]; intros h Hle; [exact Hle|].
  rewrite run_cons. unfold store at 1. cbn [fst snd]. apply IH.
  destruct (handle_store rs ev h) as [_ [Hsame | [Hnil | [e He]]]].
  - rewrite Hsame. exact Hle.
  - rewrite Hnil. simpl. lia.
  - rewrite He. apply history_append_bounded. exact Hle.
Qed.

(** X3.  The registry never lists a socket twice, so its length is the
    number of registered sockets: duplicate-freedom before a sequence of
    events gives duplicate-freedom after it. *)
Theorem registry_stays_duplicate_free (evs : list ((Client -> ReadyState) * Event))
    (h : Heap) :
  NoDup (clients h) -> NoDup (clients (store (run evs h))).
Proof.
  revert h. induction evs as [|[rs ev] rest IH]; intros h Hnd; [exact Hnd|].
  rewrite run_cons. unfold store at 1. cbn [fst snd]. apply IH.
  destruct (handle_store rs ev h) as [[Hsame | [[ws Hadd] | [ws Hdel]]] _].
  - rewrite Hsame. exact Hnd.
  - rewrite Hadd. apply Set_add_NoDup. exact Hnd.
  - rewrite Hdel. apply Set_delete_NoDup. exact Hnd.
Qed.

(** X4.  A frame is only ever handed to a socket that is in the registry
    when the handler ends, with one exception: the pong, which goes to the
    socket that sent the ping. *)
Theorem sends_go_to_registered_sockets (rs : Client -> ReadyState) (ev : Event)
    (h : Heap) (c : Client) (f : string) :
  In (WsSend c f) (trace (handle rs ev h)) ->
  In c (clients (store (handle rs ev h)))
  \/ (exists frame, ev = Message c frame /\ f = JSON_stringify pong_message).
Proof.
  destruct ev as [ws | ws frame | ws | ws]; simpl handle.
  - rewrite on_connection_run, broadcastUserCount_run.
    unfold store, trace. cbn [fst snd set_clients clients].
    intros Hin. left. destruct Hin as [Hin | Hin]; [discriminate Hin|].
    apply in_app_or in Hin. destruct Hin as [Hin | [Hin | Hin]].
    + destruct (0 <? List.length (drawingHistory h))%nat; [|contradiction].
      destruct Hin as [Hin | [Hin | []]]; [discriminate Hin|].
      inversion Hin. subst. apply Set_add_In. left. reflexivity.
    + discriminate Hin.
    + apply fan_out_In in Hin. tauto.
  - destruct (on_message_cases rs ws frame h)
      as [[data [event [_ [_ [_ Hrun]]]]] | [[data [_ [_ Hrun]]]
          | [[data [_ [_ Hrun]]] | [diag [Hdiag Hrun]]]]];
      rewrite Hrun; unfold store, trace; cbn [fst snd set_history clients].
    + intros [Hin | Hin]; [discriminate Hin|]. left. apply fan_out_In in Hin. tauto.
    + intros [Hin | Hin]; [discriminate Hin|]. left. apply fan_out_In in Hin. tauto.
    + intros [Hin | [Hin | []]]; [discriminate Hin|]. inversion Hin. subst.
      right. exists frame. split; reflexivity.
    + intros [Hin | []]. subst diag. discriminate Hdiag.
  - rewrite on_close_run, broadcastUserCount_run.
    unfold store, trace. cbn [fst snd set_clients clients].
    intros [Hin | [Hin | Hin]]; try discriminate Hin.
    left. apply fan_out_In in Hin. tauto.
  - unfold on_error, emit, trace. cbn [snd]. intros [Hin | []]. discriminate Hin.
Qed.


Lemma sends_to_fan_out (rs : Client -> ReadyState) (m : string) (cs : list Client)
    (c : Client) :
  NoDup cs ->
  sends_to c (fan_out rs m cs) = if Set_has cs c && is_OPEN (rs c) then 1 else 0.
Proof.
  unfold sends_to, fan_out, Set_has.
  induction 1 as [|x l Hx Hnd IH]; [reflexivity|].
  cbn [filter existsb]. rewrite (Nat.eqb_sym c x).
  destruct (Nat.eqb_spec x c) as [-> | Hne].
  - assert (Hno : existsb (Nat.eqb c) l = false).
    { destruct (existsb (Nat.eqb c) l) eqn:E; [|reflexivity].
      apply existsb_exists in E. destruct E as [y [Hy Hcy]].
      apply Nat.eqb_eq in Hcy. subst y. contradiction. }
    rewrite Hno in IH. cbn [orb andb] in *.
    destruct (is_OPEN (rs c)).
    + cbn [map filter is_send_to]. rewrite Nat.eqb_refl. cbn [List.length].
      rewrite IH. reflexivity.
    + exact IH.
  - cbn [orb]. destruct (is_OPEN (rs x)); [|exact IH].
    cbn [map filter is_send_to].
    destruct (Nat.eqb_spec x c) as [E | _]; [contradiction | exact IH].
Qed.

(** X6.  One broadcast hands the frame to each open member exactly once and
    to every other socket not at all, whenever the registry lists no socket
    twice. *)
Theorem broadcast_delivers_exactly_once (rs : Client -> ReadyState) (data : JSValue)
    (h : Heap) (c : Client) :
  NoDup (clients h) ->
  sends_to c (trace (broadcastToAll rs data h))
  = if Set_has (clients h) c && is_OPEN (rs c) then 1 else 0.
Proof.
  intros Hnd. rewrite broadcastToAll_run. unfold trace. cbn [snd].
  rewrite <- (sends_to_fan_out rs (JSON_stringify data) (clients h) c Hnd).
  reflexivity.
Qed.

Lemma Set_delete_absent (cs : list Client) (c : Client) :
  ~ In c cs -> Set_delete cs c = cs.
Proof.
  unfold Set_delete. induction cs as [|x l IH]; intros Hnot; [reflexivity|].
  simpl. destruct (Nat.eqb_spec x c) as [-> | Hne].
  - exfalso. apply Hnot. left. reflexivity.
  - simpl. rewrite IH; [reflexivity|]. intros H. apply Hnot. right. exact H.
Qed.

Lemma Set_delete_add (cs : list Client) (c : Client) :
  ~ In c cs -> Set_delete (Set_add cs c) c = cs.
Proof.
  intros Hnot. unfold Set_add.
  destruct (Set_has cs c) eqn:Hhas; [apply Set_has_In in Hhas; contradiction|].
  unfold Set_delete. rewrite filter_app. simpl. rewrite Nat.eqb_refl. simpl.
  rewrite app_nil_r. apply (Set_delete_absent cs c Hnot).
Qed.

(** X7.  A socket that connects and later disconnects leaves no trace in
    the state: if it was not registered before, the registry after its
    close is the registry before its connect, in the same order, whatever
    other messages were handled in between; and neither its connect nor its
    close touches the log. *)
Theorem connect_then_close_restores_registry (rs1 rs2 : Client -> ReadyState)
    (ws : Client) (between : list ((Client -> ReadyState) * Client * string))
    (h : Heap) :
  ~ In ws (clients h) ->
  clients (store (on_close rs2 ws
            (store (run (map (fun i => (fst (fst i), Message (snd (fst i)) (snd i)))
                             between)
                        (store (on_connection rs1 ws h))))))
  = clients h
  /\ drawingHistory (store (on_connection rs1 ws h)) = drawingHistory h
  /\ forall h', drawingHistory (store (on_close rs2 ws h')) = drawingHistory h'.
Proof.
  intros Hnot.
  assert (Hmsgs : forall l h0,
             clients (store (run (map (fun i : (Client -> ReadyState) * Client * string =>
                                         (fst (fst i), Message (snd (fst i)) (snd i))) l) h0))
             = clients h0).
  { induction l as [|[[rs c] fr] l IH]; intros h0; [reflexivity|].
    cbn [map fst snd]. rewrite run_cons. unfold store at 1. cbn [fst snd].
    rewrite IH. simpl handle.
    destruct (on_message_cases rs c fr h0)
      as [[data [event [_ [_ [_ Hrun]]]]] | [[data [_ [_ Hrun]]]
          | [[data [_ [_ Hrun]]] | [diag [_ Hrun]]]]];
      rewrite Hrun; reflexivity. }
  split; [|split].
  - rewrite on_close_run. unfold store at 1. cbn [fst snd set_clients clients].
    rewrite Hmsgs, on_connection_run. unfold store. cbn [fst snd set_clients clients].
    apply Set_delete_add. exact Hnot.
  - rewrite on_connection_run. reflexivity.
  - intros h'. rewrite on_close_run. reflexivity.
Qed.

(** X8.  Closing is idempotent, and closing a socket that is not registered
    changes nothing: a second close of the same socket leaves the state of
    the first, and both broadcast the same count. *)
Theorem close_is_idempotent (rs1 rs2 : Client -> ReadyState) (ws : Client) (h : Heap) :
  store (on_close rs2 ws (store (on_close rs1 ws h))) = store (on_close rs1 ws h)
  /\ (~ In ws (clients h) -> store (on_close rs1 ws h) = h)
  /\ forall v, In (Stringify v) (trace (on_close rs2 ws (store (on_close rs1 ws h)))) ->
               In (Stringify v) (trace (on_close rs1 ws h)).
Proof.
  assert (Hdd : Set_delete (Set_delete (clients h) ws) ws = Set_delete (clients h) ws).
  { apply Set_delete_absent. rewrite Set_delete_In. tauto. }
  rewrite !on_close_run, !broadcastUserCount_run.
  unfold store, trace, set_clients. cbn [fst snd clients drawingHistory].
  split; [|split].
  - rewrite Hdd. reflexivity.
  - intros Hnot. rewrite (Set_delete_absent _ _ Hnot). destruct h; reflexivity.
  - intros v. rewrite Hdd. intros [Hin | [Hin | Hin]].
    + discriminate Hin.
    + right. left. exact Hin.
    + apply Stringify_not_in_fan_out in Hin. contradiction.
Qed.

(** X9.  The count moves by exactly one: the message of type 'userCount'
    broadcast after a socket that was not registered connects has as count
    the old size plus one, the one after a registered socket closes the old
    size minus one, and a connect of a socket already registered leaves the
    count at the old size (the registry listing no socket twice).  The
    count is the double that stands for exactly that integer (for every
    size below 2^53). *)
Theorem userCount_moves_by_one (rs : Client -> ReadyState) (ws : Client) (h : Heap) :
  NoDup (clients h) ->
  (~ In ws (clients h) ->
   In (Stringify (JSObject [("type", JSString "userCount");
                            ("count", JSNumber (number_of_nat
                                                  (List.length (clients h) + 1)))]))
      (trace (on_connection rs ws h)))
  /\ (In ws (clients h) ->
      In (Stringify (JSObject [("type", JSString "userCount");
                               ("count", JSNumber (number_of_nat
                                                     (List.length (clients h) - 1)))]))
         (trace (on_close rs ws h)))
  /\ (In ws (clients h) ->
      In (Stringify (JSObject [("type", JSString "userCount");
                               ("count", JSNumber (number_of_nat
                                                     (List.length (clients h))))]))
         (trace (on_connection rs ws h)))
  /\ (forall v,
        In (Stringify v) (trace (on_connection rs ws h)) ->
        get_prop v "type" = Normal (JSString "userCount") ->
        v = JSObject [("type", JSString "userCount");
                      ("count", JSNumber (number_of_nat
                                            (List.length (Set_add (clients h) ws))))])
  /\ (forall v,
        In (Stringify v) (trace (on_close rs ws h)) ->
        v = JSObject [("type", JSString "userCount");
                      ("count", JSNumber (number_of_nat
                                            (List.length (Set_delete (clients h) ws))))])
  /\ (forall n, (Z.of_nat n < 2 ^ 53)%Z ->
                integer_of_number (number_of_nat n) = Some (Z.of_nat n)).
Proof.
  intros Hnd.
  assert (Hconn : In (Stringify (userCount_message (Set_size (Set_add (clients h) ws))))
                     (trace (on_connection rs ws h))).
  { rewrite on_connection_run, broadcastUserCount_run.
    unfold trace. cbn [fst snd set_clients clients].
    right. apply in_or_app. right. left. reflexivity. }
  rewrite Set_add_size in Hconn.
  split; [|split; [|split; [|split; [|split]]]].
  - intros Hnot. destruct (Set_has (clients h) ws) eqn:Hhas;
      [apply Set_has_In in Hhas; contradiction | exact Hconn].
  - intros Hin. rewrite on_close_run, broadcastUserCount_run.
    unfold trace. cbn [fst snd set_clients clients].
    right. left.
    change (List.length (Set_delete (clients h) ws))
      with (Set_size (Set_delete (clients h) ws)).
    unfold Set_size at 1. fold (Set_size (Set_delete (clients h) ws)).
    rewrite (Set_delete_size _ _ Hnd).
    apply Set_has_In in Hin. rewrite Hin. reflexivity.
  - intros Hin. apply Set_has_In in Hin. rewrite Hin, Nat.add_0_r in Hconn. exact Hconn.
  - intros v. rewrite on_connection_run, broadcastUserCount_run.
    unfold trace. cbn [fst snd set_clients clients].
    intros [H | H] Htype; [discriminate H|].
    apply in_app_or in H. destruct H as [H | [H | H]].
    + destruct (0 <? List.length (drawingHistory h))%nat; [|contradiction].
      destruct H as [H | [H | []]]; [|discriminate H].
      inversion H. subst v. simpl in Htype. discriminate Htype.
    + inversion H. reflexivity.
    + apply Stringify_not_in_fan_out in H. contradiction.
  - intros v. rewrite on_close_run, broadcastUserCount_run.
    unfold trace. cbn [fst snd set_clients clients].
    intros [H | [H | H]]; [discriminate H | inversion H; reflexivity |].
    apply Stringify_not_in_fan_out in H. contradiction.
  - exact number_of_nat_exact.
Qed.

(** X10.  Messages never touch the registry and connects, closes and
    transport errors never touch the log: only a draw or a clear frame can
    change what a newcomer will be replayed, and only a connect or a close
    can change who is broadcast to. *)
Theorem handlers_keep_to_their_state (rs : Client -> ReadyState) (ws : Client)
    (h : Heap) :
  (forall frame, clients (store (on_message rs ws frame h)) = clients h)
  /\ (forall frame,
        drawingHistory (store (on_message rs ws frame h)) <> drawingHistory h ->
        exists data, JSON_parse frame = Some data
                     /\ (get_prop data "type" = Normal (JSString "draw")
                         \/ get_prop data "type" = Normal (JSString "clear")))
  /\ drawingHistory (store (on_connection rs ws h)) = drawingHistory h
  /\ drawingHistory (store (on_close rs ws h)) = drawingHistory h
  /\ store (on_error ws h) = h.
Proof.
  split; [|split; [|split; [|split]]].
  - intros frame.
    destruct (on_message_cases rs ws frame h)
      as [[data [event [_ [_ [_ Hrun]]]]] | [[data [_ [_ Hrun]]]
          | [[data [_ [_ Hrun]]] | [diag [_ Hrun]]]]];
      rewrite Hrun; reflexivity.
  - intros frame.
    destruct (on_message_cases rs ws frame h)
      as [[data [event [Hp [Ht [_ Hrun]]]]] | [[data [Hp [Ht Hrun]]]
          | [[data [_ [_ Hrun]]] | [diag [_ Hrun]]]]];
      rewrite Hrun; unfold store; cbn [fst snd]; intros Hne.
    + exists data. auto.
    + exists data. auto.
    + contradiction Hne. reflexivity.
    + contradiction Hne. reflexivity.
  - rewrite on_connection_run. reflexivity.
  - rewrite on_close_run. reflexivity.
  - reflexivity.
Qed.

(** X11.  Replay composes with the log: starting from an empty log (a fresh
    relay, or right after a clear), once N >= 1 draw frames have been
    handled the log holds the last min(N, MAX_HISTORY) events in arrival
    order, and a socket connecting then is sent the message of type
    'history' whose data is exactly that sequence. *)
Theorem newcomer_is_replayed_last_events (rs : Client -> ReadyState) (ws : Client)
    (inputs : list ((Client -> ReadyState) * Client * string))
    (events : list JSValue) (h : Heap) :
  drawingHistory h = [] ->
  events <> [] ->
  Forall2 (fun i e => exists data,
               JSON_parse (snd i) = Some data
               /\ get_prop data "type" = Normal (JSString "draw")
               /\ get_prop data "data" = Normal e) inputs events ->
  drawingHistory
    (store (run (map (fun i => (fst (fst i), Message (snd (fst i)) (snd i))) inputs) h))
  = skipn (List.length events - MAX_HISTORY) events
  /\ In (WsSend ws
           (JSON_stringify
              (JSObject [("type", JSString "history");
                         ("data", JSArray (skipn (List.length events - MAX_HISTORY)
                                                 events))])))
        (trace (on_connection rs ws
                  (store (run (map (fun i => (fst (fst i), Message (snd (fst i)) (snd i)))
                                   inputs) h))))
  /\ (forall v,
        In (Stringify v)
           (trace (on_connection rs ws
                     (store (run (map (fun i => (fst (fst i), Message (snd (fst i)) (snd i)))
                                      inputs) h)))) ->
        get_prop v "type" = Normal (JSString "history") ->
        get_prop v "data"
        = Normal (JSArray (skipn (List.length events - MAX_HISTORY) events))).
Proof.
  intros Hempty Hne Hall.
  assert (Hlog : drawingHistory
                   (store (run (map (fun i : (Client -> ReadyState) * Client * string =>
                                       (fst (fst i), Message (snd (fst i)) (snd i)))
                                    inputs) h))
                 = skipn (List.length events - MAX_HISTORY) events).
  { rewrite (run_draw_frames inputs events h Hall), Hempty.
    exact (fold_history_append_window events []). }
  split; [exact Hlog|].
  rewrite on_connection_run, broadcastUserCount_run, Hlog. unfold trace. cbn [fst snd].
  assert (Hpos : (0 <? List.length (skipn (List.length events - MAX_HISTORY) events))%nat
                 = true).
  { apply Nat.ltb_lt. rewrite length_skipn.
    destruct events; [congruence | simpl List.length; unfold MAX_HISTORY; lia]. }
  rewrite Hpos. split.
  - right. apply in_or_app. left. right. left. reflexivity.
  - intros v [H | H] Htype; [discriminate H|].
    apply in_app_or in H. destruct H as [[H | [H | []]] | [H | H]].
    + inversion H. reflexivity.
    + discriminate H.
    + inversion H. subst v. simpl in Htype. discriminate Htype.
    + apply Stringify_not_in_fan_out in H. contradiction.
Qed.

Lemma own_property_missing (props : list (string * JSValue)) (key : string) :
  (forall v, ~ In (key, v) props) -> own_property props key = JSUndefined.
Proof.
  induction props as [|[k v] rest IH]; intros Hno; [reflexivity|].
  simpl. destruct (String.eqb_spec k key) as [-> | Hne].
  - exfalso. apply (Hno v). left. reflexivity.
  - apply IH. intros v' Hin. apply (Hno v'). right. exact Hin.
Qed.

(** X12.  A draw frame with no data field is not rejected: the relay
    appends undefined to the log (where it takes up a slot and is replayed
    to newcomers) and broadcasts the frame like any other draw. *)
Theorem draw_without_data_logs_undefined (rs : Client -> ReadyState) (ws : Client)
    (frame : string) (props : list (string * JSValue)) (h : Heap) :
  JSON_parse frame = Some (JSObject props) ->
  own_property props "type" = JSString "draw" ->
  (forall v, ~ In ("data", v) props) ->
  on_message rs ws frame h
  = (Normal tt, set_history (fun log => history_append log JSUndefined) h,
     Stringify (JSObject props)
     :: fan_out rs (JSON_stringify (JSObject props)) (clients h)).
Proof.
  intros Hparse Htype Hno.
  apply (on_message_decoded rs ws frame (JSObject props)); [exact Hparse|].
  apply dispatch_draw.
  - simpl. rewrite Htype. reflexivity.
  - simpl. rewrite (own_property_missing props "data" Hno). reflexivity.
Qed.

(** X13.  How each kind of bad frame is reported.  Text that is not JSON is
    logged as a SyntaxError; the JSON text null as a TypeError (reading
    .type of null throws); and any other JSON value that is not an object
    (a boolean, number, string or array) as an unknown message type
    undefined.  In all three cases that one console line is all that
    happens. *)
Theorem bad_frames_are_reported (rs : Client -> ReadyState) (ws : Client)
    (frame : string) (h : Heap) :
  (JSON_parse frame = None ->
   on_message rs ws frame h
   = (Normal tt, h, [ConsoleError "Error processing message:" SyntaxError]))
  /\ (JSON_parse frame = Some JSNull ->
      on_message rs ws frame h
      = (Normal tt, h, [ConsoleError "Error processing message:" TypeError]))
  /\ (forall v, JSON_parse frame = Some v -> readable v = true ->
                (forall props, v <> JSObject props) ->
                on_message rs ws frame h
                = (Normal tt, h, [ConsoleLog "Unknown message type:" JSUndefined])).
Proof.
  split; [|split].
  - intros Hparse. unfold on_message, try_catch, bind, parse. rewrite Hparse. reflexivity.
  - intros Hparse. unfold on_message, try_catch, bind, parse. rewrite Hparse. reflexivity.
  - intros v Hparse Hread Hobj.
    apply (on_message_decoded rs ws frame v); [exact Hparse|].
    apply dispatch_other; [|reflexivity].
    destruct v; try discriminate Hread; try reflexivity.
    exfalso. apply (Hobj props). reflexivity.
Qed.
End Server.

(** ** The browser side *)



(** ** The theorems at work on concrete runs *)


Lemma clear_empties_history_and_fans_out_witness :
  read clear_frame = Some clear_message
  /\ drawingHistory (store (on_message read show two_closing 1 clear_frame
                              two_members_one_segment)) = []
  /\ trace (on_message read show two_closing 1 clear_frame two_members_one_segment)
     = [Stringify clear_message; WsSend 1 clear_frame].
Proof.
  split; [reflexivity |].
  destruct (clear_empties_history_and_fans_out read show two_closing 1 clear_frame
              clear_message two_members_one_segment eq_refl eq_refl)
    as [_ [Hlog [_ [Htrace _]]]].
  split; [exact Hlog | exact Htrace].
Defined.



Lemma history_sent_once_to_newcomer_first_witness :
  drawingHistory two_members_one_segment <> []
  /\ trace (run read show [(all_open, Connection 3); (all_open, Message 1 clear_frame)]
              two_members_one_segment)
     = [ConsoleLog "New client connected. Total clients:" (JSNumber (number_of_nat 3));
        Stringify (JSObject [("type", JSString "history");
                             ("data", JSArray [segment "a"])]);
        WsSend 3 (show (JSObject [("type", JSString "history");
                                  ("data", JSArray [segment "a"])]))]
       ++ trace (broadcastUserCount show all_open (mkHeap [1; 2; 3] [segment "a"]))
       ++ trace (run read show [(all_open, Message 1 clear_frame)]
                   (mkHeap [1; 2; 3] [segment "a"])).
Proof.
  split; [discriminate |].
  destruct (history_sent_once_to_newcomer_first read show all_open 3
              two_members_one_segment [(all_open, Message 1 clear_frame)])
    as [_ [_ [_ Htrace]]]; [discriminate |].
  exact Htrace.
Defined.

(** A, then a draw, then a clear, then D connects: D is sent the user count
    and no history message, empty or not. *)
Lemma no_history_for_connect_after_clear :
  drawingHistory
    (store (run read show [(all_open, Connection 1); (all_open, Message 1 draw_frame);
                           (all_open, Message 1 clear_frame)] startup)) = []
  /\ ~ (exists f,
          In (WsSend 4 f)
             (trace (on_connection show all_open 4
                       (store (run read show
                                 [(all_open, Connection 1);
                                  (all_open, Message 1 draw_frame);
                                  (all_open, Message 1 clear_frame)] startup))))
          /\ f = show (history_message [])).
Proof.
  split; [reflexivity |].
  intros [f [Hin Hf]]. subst f. vm_compute in Hin.
  destruct Hin as [H | [H | [H | [H | []]]]]; discriminate H.
Qed.

Lemma connect_after_clear_gets_no_history_witness :
  read clear_frame = Some clear_message
  /\ trace (on_connection show all_open 4
              (store (on_message read show all_open 1 clear_frame
                        two_members_one_segment)))
     = [ConsoleLog "New client connected. Total clients:" (JSNumber (number_of_nat 3));
        Stringify (userCount_message 3);
        WsSend 1 (show (userCount_message 3));
        WsSend 2 (show (userCount_message 3));
        WsSend 4 (show (userCount_message 3))].
Proof.
  split; [reflexivity |].
  destruct (connect_after_clear_gets_no_history read show all_open all_open 1 4
              clear_frame clear_message two_members_one_segment eq_refl eq_refl)
    as [_ [Htrace _]].
  exact Htrace.
Defined.

Lemma ping_is_answered_with_pong_to_sender_witness :
  read ping_frame = Some ping_message
  /\ on_message read show two_closing 1 ping_frame two_members_one_segment
     = (Normal tt, two_members_one_segment,
        [Stringify (JSObject [("type", JSString "pong")]);
         WsSend 1 (show (JSObject [("type", JSString "pong")]))]).
Proof.
  split; [reflexivity |].
  apply (ping_is_answered_with_pong_to_sender read show two_closing 1 ping_frame
           ping_message two_members_one_segment); reflexivity.
Defined.



(** ** Reasoning about computations step by step *)

Section Relates.
Context {S E : Type}.
Variable R : S -> list E -> S -> Prop.
Hypothesis R_nil : forall s, R s [] s.
Hypothesis R_app : forall s t1 s1 t2 s2, R s t1 s1 -> R s1 t2 s2 -> R s (t1 ++ t2) s2.

Lemma relates_ret {A} (a : A) : relates R (ret a).
Proof. intros s. apply R_nil. Qed.

Lemma relates_lift {A} (c : Completion A) : relates R (lift c).
Proof. intros s. apply R_nil. Qed.

Lemma relates_gets {A} (f : S -> A) : relates R (gets f).
Proof. intros s. apply R_nil. Qed.

Lemma relates_throw {A} (e : Exn) : relates R (@throw S E A e).
Proof. intros s. apply R_nil. Qed.

Lemma relates_bind {A B} (m : Js S E A) (k : A -> Js S E B) :
  relates R m -> (forall a, relates R (k a)) -> relates R (bind m k).
Proof.
  intros Hm Hk s. specialize (Hm s). unfold bind, trace, store in *.
  destruct (m s) as [[[a | e] s1] t1]; cbn [fst snd] in *; [|exact Hm].
  specialize (Hk a s1). unfold trace, store in Hk.
  destruct (k a s1) as [[r s2] t2]. cbn [fst snd] in *.
  apply (R_app s t1 s1 t2 s2); assumption.
Qed.

Lemma relates_try_catch {A} (m : Js S E A) (k : Exn -> Js S E A) :
  relates R m -> (forall e, relates R (k e)) -> relates R (try_catch m k).
Proof.
  intros Hm Hk s. specialize (Hm s). unfold try_catch, trace, store in *.
  destruct (m s) as [[[a | e] s1] t1]; cbn [fst snd] in *; [exact Hm|].
  specialize (Hk e s1). unfold trace, store in Hk.
  destruct (k e s1) as [[r s2] t2]. cbn [fst snd] in *.
  apply (R_app s t1 s1 t2 s2); assumption.
Qed.

Lemma relates_forEach {A} (xs : list A) (f : A -> Js S E unit) :
  (forall x, relates R (f x)) -> relates R (forEach xs f).
Proof.
  intros Hf. induction xs as [|x xs IH]; simpl.
  - apply relates_ret.
  - apply relates_bind; [apply Hf | intros _; exact IH].
Qed.
End Relates.

Ltac relate_with R Hnil Happ leaf :=
  repeat first
    [ leaf
    | apply (relates_bind R Happ); [|intros ?]
    | apply (relates_ret R Hnil)
    | apply (relates_lift R Hnil)
    | apply (relates_gets R Hnil)
    | apply (relates_throw R Hnil)
    | apply (relates_forEach R Hnil Happ); intros ?
    | match goal with
      | |- _ (if ?b then _ else _) => destruct b
      | |- _ (match ?x with _ => _ end) => destruct x
      end ].

(** ** Receiving on the page *)

Lemma same_nil {S E : Type} (s : S) : (fun (a : S) (_ : list E) (b : S) => b = a) s [] s.
Proof. reflexivity. Qed.

Lemma same_app {S E : Type} (s : S) (t1 : list E) (s1 : S) (t2 : list E) (s2 : S) :
  s1 = s -> s2 = s1 -> s2 = s.
Proof. congruence. Qed.

Lemma emit_same {S E : Type} (x : E) :
  relates (fun (a : S) (_ : list E) (b : S) => b = a) (emit x).
Proof. intros s. reflexivity. Qed.

(** [handleMessage] and the methods it calls write no field of [this]. *)
Lemma handleMessage_keeps_this (message : JSValue) :
  relates (fun a _ b => b = a) (App.handleMessage message).
Proof.
  unfold App.handleMessage, App.drawLine, App.clearCanvas, App.forEach_value.
  relate_with (fun (a : App.DrawingApp) (_ : list App.UiEffect) (b : App.DrawingApp) => b = a)
              (@same_nil App.DrawingApp App.UiEffect)
              (@same_app App.DrawingApp App.UiEffect)
              ltac:(apply emit_same).
Qed.

Lemma drawLine_keeps_this (data : JSValue) :
  relates (fun a _ b => b = a) (App.drawLine data).
Proof.
  unfold App.drawLine.
  relate_with (fun (a : App.DrawingApp) (_ : list App.UiEffect) (b : App.DrawingApp) => b = a)
              (@same_nil App.DrawingApp App.UiEffect)
              (@same_app App.DrawingApp App.UiEffect)
              ltac:(apply emit_same).
Qed.

Lemma clearCanvas_keeps_this : relates (fun a _ b => b = a) App.clearCanvas.
Proof.
  unfold App.clearCanvas.
  relate_with (fun (a : App.DrawingApp) (_ : list App.UiEffect) (b : App.DrawingApp) => b = a)
              (@same_nil App.DrawingApp App.UiEffect)
              (@same_app App.DrawingApp App.UiEffect)
              ltac:(apply emit_same).
Qed.

Lemma set_self_self (s : Pen.State) : Pen.set_self (Pen.self s) s = s.
Proof. destruct s. reflexivity. Qed.

Lemma ui_run {A} (m : App.Ui A) (s : Pen.State) :
  relates (fun a _ b => b = a) m ->
  Pen.ui m s = (result (m (Pen.self s)), s, map Pen.Ui (trace (m (Pen.self s)))).
Proof.
  intros Hm. specialize (Hm (Pen.self s)). unfold Pen.ui, result, store, trace in *.
  destruct (m (Pen.self s)) as [[r a] t]. cbn [fst snd] in *. subst a.
  rewrite set_self_self. reflexivity.
Qed.

Lemma drawLine_run (data : JSValue) (app : App.DrawingApp) :
  readable data = true ->
  App.drawLine data app = (Normal tt, app, segment_of data).
Proof.
  intros Hread. unfold App.drawLine, segment_of, segment_calls, field, bind, lift, emit.
  destruct data; try discriminate Hread; reflexivity.
Qed.






(** ** Sending from the page *)

Section PenFacts.
Variable JSON_parse : string -> option JSValue.
Variable JSON_stringify : JSValue -> string.

Lemma sendMessage_run (rs : Client -> ReadyState) (message : JSValue) (s : Pen.State) :
  Pen.sendMessage JSON_stringify rs message s
  = match open_socket rs s with
    | Some w =>
        (Normal tt, Pen.set_messageCount (Pen.messageCount s + 1) s,
         [Pen.Serialize message; Pen.SocketSend w (JSON_stringify message);
          Pen.SetTextContent "message-count"
            (JSNumber (number_of_nat (Pen.messageCount s + 1)))])
    | None =>
        (Normal tt, s, [Pen.ConsoleWarn "Cannot send message - WebSocket not connected"])
    end.
Proof.
  unfold Pen.sendMessage, open_socket, bind, gets. cbv iota beta.
  destruct (Pen.ws s) as [w|]; [|reflexivity].
  destruct (is_OPEN (rs w)); reflexivity.
Qed.

Lemma drawData_segment (s : Pen.State) (pos : JSValue * JSValue) (now : spec_float) :
  segment_of (Pen.drawData s pos now)
  = segment_calls (Pen.lastX s) (Pen.lastY s) (fst pos) (snd pos)
                  (Pen.currentColor s) (Pen.currentSize s).
Proof. reflexivity. Qed.

Lemma draw_run (rs : Client -> ReadyState) (rect : Pen.DOMRect) (e : Pen.MouseEvent)
    (now : spec_float) (s : Pen.State) :
  Pen.isDrawing s = true ->
  Pen.draw JSON_stringify rs rect e now s
  = (Normal tt,
     Pen.set_last (fst (Pen.getMousePos rect e)) (snd (Pen.getMousePos rect e))
       (store (Pen.sendMessage JSON_stringify rs
                 (draw_payload (Pen.drawData s (Pen.getMousePos rect e) now)) s)),
     map Pen.Ui (segment_calls (Pen.lastX s) (Pen.lastY s)
                   (fst (Pen.getMousePos rect e)) (snd (Pen.getMousePos rect e))
                   (Pen.currentColor s) (Pen.currentSize s))
     ++ trace (Pen.sendMessage JSON_stringify rs
                 (draw_payload (Pen.drawData s (Pen.getMousePos rect e) now)) s)).
Proof.
  intros Hdrawing. unfold Pen.draw, bind at 1, gets at 1. rewrite Hdrawing.
  cbv iota beta. cbn [negb]. unfold bind at 1, gets at 1. cbv iota beta.
  unfold bind at 1.
  rewrite (ui_run (App.drawLine (Pen.drawData s (Pen.getMousePos rect e) now)) s
             (drawLine_keeps_this _)).
  rewrite (drawLine_run (Pen.drawData s (Pen.getMousePos rect e) now) (Pen.self s)
             eq_refl).
  unfold result, trace at 1. cbn [fst snd]. rewrite drawData_segment.
  unfold bind, modify, draw_payload, store, trace.
  destruct (Pen.sendMessage JSON_stringify rs
              (JSObject [("type", JSString "draw");
                         ("data", Pen.drawData s (Pen.getMousePos rect e) now)]) s)
    as [[r s1] t1] eqn:Hsend.
  rewrite sendMessage_run in Hsend.
  destruct (open_socket rs s); inversion Hsend; subst; cbn [fst snd];
    rewrite app_nil_r; reflexivity.
Qed.

Lemma canvas_calls_app (t1 t2 : list Pen.Action) :
  Pen.canvas_calls (t1 ++ t2) = Pen.canvas_calls t1 ++ Pen.canvas_calls t2.
Proof. unfold Pen.canvas_calls. apply flat_map_app. Qed.

Lemma canvas_calls_segment (a b c d color size : JSValue) :
  Pen.canvas_calls (map Pen.Ui (segment_calls a b c d color size))
  = segment_calls a b c d color size.
Proof. reflexivity. Qed.

Lemma canvas_calls_sendMessage (rs : Client -> ReadyState) (message : JSValue)
    (s : Pen.State) :
  Pen.canvas_calls (trace (Pen.sendMessage JSON_stringify rs message s)) = [].
Proof.
  rewrite sendMessage_run. destruct (open_socket rs s); reflexivity.
Qed.

(** X15.  While the button is down a mouse move is drawn on the local
    canvas at once, from the last position to the new one in the current
    colour and size, whether or not the socket is open; the last position
    always advances.  The segment is sent, as one draw frame, only when the
    socket is set and open; otherwise nothing is sent and the segment
    exists on this page alone. *)
Theorem draw_renders_locally_sends_if_open (rs : Client -> ReadyState)
    (rect : Pen.DOMRect) (e : Pen.MouseEvent) (now : spec_float) (s : Pen.State) :
  Pen.isDrawing s = true ->
  Pen.canvas_calls (trace (Pen.draw JSON_stringify rs rect e now s))
  = segment_calls (Pen.lastX s) (Pen.lastY s)
                  (fst (Pen.getMousePos rect e)) (snd (Pen.getMousePos rect e))
                  (Pen.currentColor s) (Pen.currentSize s)
  /\ Pen.lastX (store (Pen.draw JSON_stringify rs rect e now s))
     = fst (Pen.getMousePos rect e)
  /\ Pen.lastY (store (Pen.draw JSON_stringify rs rect e now s))
     = snd (Pen.getMousePos rect e)
  /\ filter Pen.is_SocketSend (trace (Pen.draw JSON_stringify rs rect e now s))
     = match open_socket rs s with
       | Some w =>
           [Pen.SocketSend w
              (JSON_stringify
                 (draw_payload (Pen.drawData s (Pen.getMousePos rect e) now)))]
       | None => []
       end.
Proof.
  intros Hdrawing. rewrite (draw_run rs rect e now s Hdrawing).
  unfold store, trace. cbn [fst snd]. rewrite sendMessage_run.
  destruct (open_socket rs s); cbn [fst snd];
    (split; [|split; [|split]]); reflexivity.
Qed.

(** X16.  Once the button is released (or the pointer leaves the canvas),
    mouse moves do nothing at all: nothing is drawn, nothing is sent and no
    field changes, until the next mouse down. *)
Theorem no_drawing_after_release (rs : Client -> ReadyState) (rect : Pen.DOMRect)
    (e : Pen.MouseEvent) (now : spec_float) (s : Pen.State) :
  Pen.draw JSON_stringify rs rect e now (store (Pen.stopDrawing s))
  = (Normal tt, store (Pen.stopDrawing s), [])
  /\ Pen.isDrawing (store (Pen.stopDrawing s)) = false
  /\ Pen.isDrawing (store (Pen.startDrawing rect e s)) = true.
Proof.
  assert (Hstop : Pen.isDrawing (store (Pen.stopDrawing s)) = false).
  { unfold Pen.stopDrawing, bind, gets, store. cbv iota beta.
    destruct (Pen.isDrawing s) eqn:E; [reflexivity | exact E]. }
  split; [|split; [exact Hstop | reflexivity]].
  unfold Pen.draw, bind at 1, gets at 1. rewrite Hstop. reflexivity.
Qed.

Lemma run_moves (moves : list Move) (s : Pen.State) :
  Pen.isDrawing s = true ->
  Pen.canvas_calls (snd (Pen.run JSON_parse JSON_stringify (map as_mousemove moves) s))
  = polyline (Pen.currentColor s) (Pen.currentSize s)
             ((Pen.lastX s, Pen.lastY s) :: map point_of moves).
Proof.
  revert s. induction moves as [|[[[rs rect] e] now] moves IH]; intros s Hdrawing;
    [reflexivity|].
  cbn [map as_mousemove fst snd Pen.run Pen.listener].
  rewrite (draw_run rs rect e now s Hdrawing).
  set (s1 := Pen.set_last _ _ _).
  assert (Hs1 : Pen.isDrawing s1 = true /\ Pen.currentColor s1 = Pen.currentColor s
                /\ Pen.currentSize s1 = Pen.currentSize s
                /\ Pen.lastX s1 = fst (Pen.getMousePos rect e)
                /\ Pen.lastY s1 = snd (Pen.getMousePos rect e)).
  { subst s1. rewrite sendMessage_run. unfold store.
    destruct (open_socket rs s); cbn; auto. }
  destruct Hs1 as [Hd1 [Hc1 [Hz1 [Hx1 Hy1]]]].
  specialize (IH s1 Hd1). rewrite Hc1, Hz1, Hx1, Hy1 in IH.
  destruct (Pen.run JSON_parse JSON_stringify (map as_mousemove moves) s1) as [s2 t2].
  cbn [snd] in *.
  rewrite !canvas_calls_app, canvas_calls_segment, canvas_calls_sendMessage, IH.
  rewrite app_nil_r. cbn [polyline map fst snd].
  change (point_of (rs, rect, e, now)) with (Pen.getMousePos rect e).
  reflexivity.
Qed.

(** X17.  A stroke is a connected polyline: after a mouse down at a point,
    the moves that follow draw the segments joining each point to the next,
    in order, starting at the mouse-down point, all in the colour and size
    current at the mouse down, and nothing else is drawn; this holds
    whatever the socket does meanwhile. *)
Theorem stroke_is_connected_polyline (rs0 : Client -> ReadyState) (rect0 : Pen.DOMRect)
    (e0 : Pen.MouseEvent) (moves : list Move) (s : Pen.State) :
  Pen.canvas_calls
    (snd (Pen.run JSON_parse JSON_stringify
            ((rs0, rect0, Pen.Mousedown e0) :: map as_mousemove moves) s))
  = polyline (Pen.currentColor s) (Pen.currentSize s)
             (Pen.getMousePos rect0 e0 :: map point_of moves).
Proof.
  cbn [Pen.run Pen.listener].
  set (s1 := Pen.set_last (fst (Pen.getMousePos rect0 e0)) (snd (Pen.getMousePos rect0 e0))
               (Pen.set_isDrawing true s)).
  assert (Hstart : Pen.startDrawing rect0 e0 s
                   = (Normal tt, s1,
                      [Pen.Ui (App.Log "Started drawing at:"
                                 [Pen.pos_object (Pen.getMousePos rect0 e0)])])).
  { reflexivity. }
  rewrite Hstart.
  pose proof (run_moves moves s1 eq_refl) as Hmoves.
  destruct (Pen.run JSON_parse JSON_stringify (map as_mousemove moves) s1) as [s2 t2].
  cbn [snd] in *. rewrite canvas_calls_app, Hmoves. subst s1.
  cbn [Pen.canvas_calls flat_map Pen.is_canvas_call app Pen.set_last Pen.set_isDrawing
       Pen.currentColor Pen.currentSize Pen.lastX Pen.lastY].
  destruct (Pen.getMousePos rect0 e0) as [x y]. reflexivity.
Qed.
End PenFacts.

(** ** What holds of the page over any sequence of events *)

Section PageInvariants.
Variable JSON_parse : string -> option JSValue.
Variable JSON_stringify : JSValue -> string.

Lemma sent_app (t1 t2 : list Pen.Action) : sent (t1 ++ t2) = sent t1 + sent t2.
Proof. unfold sent. rewrite filter_app, length_app. reflexivity. Qed.

Lemma run_app (l1 l2 : list ((Client -> ReadyState) * Pen.DOMRect * Pen.Input))
    (s : Pen.State) :
  Pen.run JSON_parse JSON_stringify (l1 ++ l2) s
  = (fst (Pen.run JSON_parse JSON_stringify l2
            (fst (Pen.run JSON_parse JSON_stringify l1 s))),
     snd (Pen.run JSON_parse JSON_stringify l1 s)
     ++ snd (Pen.run JSON_parse JSON_stringify l2
               (fst (Pen.run JSON_parse JSON_stringify l1 s)))).
Proof.
  revert s. induction l1 as [|[[rs rect] i] l1 IH]; intros s.
  - cbn [app Pen.run fst snd].
    destruct (Pen.run JSON_parse JSON_stringify l2 s). reflexivity.
  - cbn [app Pen.run].
    destruct (Pen.listener JSON_parse JSON_stringify rs rect i s) as [[r s1] t1].
    rewrite IH.
    destruct (Pen.run JSON_parse JSON_stringify l1 s1) as [s2 t2]. cbn [fst snd].
    rewrite app_assoc. reflexivity.
Qed.

(** Lifting a fact about every listener to every run. *)
Lemma run_relates (R : Pen.State -> list Pen.Action -> Pen.State -> Prop)
    (ok : Pen.Input -> bool) :
  (forall s, R s [] s) ->
  (forall s t1 s1 t2 s2, R s t1 s1 -> R s1 t2 s2 -> R s (t1 ++ t2) s2) ->
  (forall rs rect i, ok i = true ->
                     relates R (Pen.listener JSON_parse JSON_stringify rs rect i)) ->
  forall evs s,
    forallb (fun x => ok (snd x)) evs = true ->
    R s (snd (Pen.run JSON_parse JSON_stringify evs s))
      (fst (Pen.run JSON_parse JSON_stringify evs s)).
Proof.
  intros Hnil Happ Hstep. induction evs as [|[[rs rect] i] evs IH]; intros s Hok.
  - apply Hnil.
  - cbn [forallb snd] in Hok. apply andb_true_iff in Hok. destruct Hok as [Hi Hok].
    cbn [Pen.run]. specialize (Hstep rs rect i Hi s). unfold trace, store in Hstep.
    destruct (Pen.listener JSON_parse JSON_stringify rs rect i s) as [[r s1] t1].
    cbn [fst snd] in Hstep. specialize (IH s1 Hok).
    destruct (Pen.run JSON_parse JSON_stringify evs s1) as [s2 t2]. cbn [fst snd] in *.
    apply (Happ s t1 s1 t2 s2); assumption.
Qed.

Lemma forallb_true {A} (l : list A) : forallb (fun _ => true) l = true.
Proof. induction l; simpl; auto. Qed.

Lemma acc_nil (s : Pen.State) : Pen.messageCount s = Pen.messageCount s + sent [].
Proof. unfold sent. simpl. lia. Qed.

Lemma acc_app (s : Pen.State) (t1 : list Pen.Action) (s1 : Pen.State)
    (t2 : list Pen.Action) (s2 : Pen.State) :
  Pen.messageCount s1 = Pen.messageCount s + sent t1 ->
  Pen.messageCount s2 = Pen.messageCount s1 + sent t2 ->
  Pen.messageCount s2 = Pen.messageCount s + sent (t1 ++ t2).
Proof. rewrite sent_app. lia. Qed.

Lemma acc_emit (x : Pen.Action) :
  Pen.is_SocketSend x = false -> accounted (emit x).
Proof. intros Hx s. unfold sent, emit, store, trace. simpl. rewrite Hx. simpl. lia. Qed.

Lemma acc_modify (f : Pen.State -> Pen.State) :
  (forall s, Pen.messageCount (f s) = Pen.messageCount s) -> accounted (modify f).
Proof. intros Hf s. unfold sent, modify, store, trace. simpl. rewrite Hf. lia. Qed.

Lemma acc_ui {A} (m : App.Ui A) : accounted (Pen.ui m).
Proof.
  intros s. unfold Pen.ui, store, trace, sent.
  destruct (m (Pen.self s)) as [[r a] t]. cbn [fst snd Pen.set_self Pen.messageCount].
  assert (Hnone : filter Pen.is_SocketSend (map Pen.Ui t) = []).
  { induction t; simpl; auto. }
  rewrite Hnone. simpl. lia.
Qed.

Lemma acc_sendMessage (rs : Client -> ReadyState) (message : JSValue) :
  accounted (Pen.sendMessage JSON_stringify rs message).
Proof.
  intros s. rewrite sendMessage_run.
  destruct (open_socket rs s); unfold store, trace, sent; simpl; lia.
Qed.

Lemma listener_accounted (rs : Client -> ReadyState) (rect : Pen.DOMRect)
    (i : Pen.Input) :
  accounted (Pen.listener JSON_parse JSON_stringify rs rect i).
Proof.
  destruct i; unfold Pen.listener, Pen.startDrawing, Pen.draw, Pen.stopDrawing,
    Pen.handleTouch, Pen.on_color_change, Pen.on_brush_input, Pen.on_clear_click,
    Pen.onopen, Pen.onmessage, Pen.onclose, Pen.onerror, Pen.heartbeat_tick,
    Pen.connectWebSocket, Pen.updateConnectionStatus, Pen.startHeartbeat,
    Pen.stopHeartbeat, Pen.startDrawing, Pen.draw, Pen.stopDrawing, Pen.log;
    relate_with (fun s t s' => Pen.messageCount s' = Pen.messageCount s + sent t)
                acc_nil acc_app
                ltac:(first [ apply acc_sendMessage
                            | apply acc_ui
                            | apply acc_emit; reflexivity
                            | apply acc_modify; intros; reflexivity ]).
Qed.

(** X18.  The message counter the page shows is exact: over any sequence
    of events it grows by one for each frame handed to the socket (draws,
    clears and heartbeat pings alike) and by nothing else; an attempt made
    while the socket is not open does not count. *)
Theorem message_counter_counts_frames_sent
    (evs : list ((Client -> ReadyState) * Pen.DOMRect * Pen.Input)) (s : Pen.State) :
  Pen.messageCount (fst (Pen.run JSON_parse JSON_stringify evs s))
  = Pen.messageCount s + sent (snd (Pen.run JSON_parse JSON_stringify evs s)).
Proof.
  apply (run_relates (fun s t s' => Pen.messageCount s' = Pen.messageCount s + sent t)
                     (fun _ => true) acc_nil acc_app).
  - intros rs rect i _. apply listener_accounted.
  - apply forallb_true.
Qed.
End PageInvariants.

Section PageLifecycle.
Variable JSON_parse : string -> option JSValue.
Variable JSON_stringify : JSValue -> string.

Lemma self_nil (s : Pen.State) : Pen.self s = Pen.self s.
Proof. reflexivity. Qed.

Lemma self_app (s : Pen.State) (t1 : list Pen.Action) (s1 : Pen.State)
    (t2 : list Pen.Action) (s2 : Pen.State) :
  Pen.self s1 = Pen.self s -> Pen.self s2 = Pen.self s1 -> Pen.self s2 = Pen.self s.
Proof. congruence. Qed.

Lemma self_emit (x : Pen.Action) :
  relates (fun s (_ : list Pen.Action) s' => Pen.self s' = Pen.self s) (emit x).
Proof. intros s. reflexivity. Qed.

Lemma self_modify (f : Pen.State -> Pen.State) :
  (forall s, Pen.self (f s) = Pen.self s) ->
  relates (fun s (_ : list Pen.Action) s' => Pen.self s' = Pen.self s) (modify f).
Proof. intros Hf s. apply Hf. Qed.

Lemma self_ui {A} (m : App.Ui A) :
  relates (fun a _ b => b = a) m ->
  relates (fun s (_ : list Pen.Action) s' => Pen.self s' = Pen.self s) (Pen.ui m).
Proof. intros Hm s. rewrite (ui_run m s Hm). reflexivity. Qed.

Lemma listener_keeps_self (rs : Client -> ReadyState) (rect : Pen.DOMRect)
    (i : Pen.Input) :
  relates (fun s (_ : list Pen.Action) s' => Pen.self s' = Pen.self s)
          (Pen.listener JSON_parse JSON_stringify rs rect i).
Proof.
  destruct i; unfold Pen.listener, Pen.startDrawing, Pen.draw, Pen.stopDrawing,
    Pen.handleTouch, Pen.on_color_change, Pen.on_brush_input, Pen.on_clear_click,
    Pen.onopen, Pen.onmessage, Pen.onclose, Pen.onerror, Pen.heartbeat_tick,
    Pen.connectWebSocket, Pen.updateConnectionStatus, Pen.startHeartbeat,
    Pen.stopHeartbeat, Pen.startDrawing, Pen.draw, Pen.stopDrawing, Pen.sendMessage,
    Pen.log;
    relate_with (fun s (_ : list Pen.Action) s' => Pen.self s' = Pen.self s)
                self_nil self_app
                ltac:(first [ apply self_emit
                            | apply self_modify; intros; reflexivity
                            | apply self_ui;
                              first [ apply drawLine_keeps_this
                                    | apply clearCanvas_keeps_this
                                    | apply handleMessage_keeps_this ] ]).
Qed.

(** X19.  The clientId a page picked when it was constructed is the one it
    has for good: no event changes it, a reconnect included, so the id its
    own echoes are recognised by is the id it stamped them with. *)
Theorem clientId_is_fixed (evs : list ((Client -> ReadyState) * Pen.DOMRect * Pen.Input))
    (s : Pen.State) :
  App.clientId (Pen.self (fst (Pen.run JSON_parse JSON_stringify evs s)))
  = App.clientId (Pen.self s).
Proof.
  f_equal.
  apply (run_relates JSON_parse JSON_stringify
           (fun s (_ : list Pen.Action) s' => Pen.self s' = Pen.self s)
           (fun _ => true) self_nil self_app).
  - intros rs rect i _. apply listener_keeps_self.
  - apply forallb_true.
Qed.

(** X20.  Handling a frame from the relay only ever calls the canvas, the
    user-count display and the console: it never sends anything back, sets
    no timer and leaves every field of the page as it was, whatever the
    frame holds and whether or not the handler throws. *)
Theorem receiving_never_sends (data : string) (s : Pen.State) :
  store (Pen.onmessage JSON_parse data s) = s
  /\ (exists t, trace (Pen.onmessage JSON_parse data s) = map Pen.Ui t)
  /\ sent (trace (Pen.onmessage JSON_parse data s)) = 0.
Proof.
  unfold Pen.onmessage. destruct (JSON_parse data) as [message|].
  - rewrite (ui_run (App.handleMessage message) s (handleMessage_keeps_this message)).
    unfold store, trace. cbn [fst snd].
    split; [reflexivity | split].
    + eexists. reflexivity.
    + unfold sent. induction (snd (App.handleMessage message (Pen.self s))); simpl; auto.
  - split; [reflexivity | split; [exists []; reflexivity | reflexivity]].
Qed.

Lemma hb_nil (s : Pen.State) : Pen.heartbeatInterval s = Pen.heartbeatInterval s.
Proof. reflexivity. Qed.

Lemma hb_app (s : Pen.State) (t1 : list Pen.Action) (s1 : Pen.State)
    (t2 : list Pen.Action) (s2 : Pen.State) :
  Pen.heartbeatInterval s1 = Pen.heartbeatInterval s ->
  Pen.heartbeatInterval s2 = Pen.heartbeatInterval s1 ->
  Pen.heartbeatInterval s2 = Pen.heartbeatInterval s.
Proof. congruence. Qed.

Lemma hb_emit (x : Pen.Action) :
  relates (fun s (_ : list Pen.Action) s' =>
             Pen.heartbeatInterval s' = Pen.heartbeatInterval s) (emit x).
Proof. intros s. reflexivity. Qed.

Lemma hb_modify (f : Pen.State -> Pen.State) :
  (forall s, Pen.heartbeatInterval (f s) = Pen.heartbeatInterval s) ->
  relates (fun s (_ : list Pen.Action) s' =>
             Pen.heartbeatInterval s' = Pen.heartbeatInterval s) (modify f).
Proof. intros Hf s. apply Hf. Qed.

Lemma hb_ui {A} (m : App.Ui A) :
  relates (fun s (_ : list Pen.Action) s' =>
             Pen.heartbeatInterval s' = Pen.heartbeatInterval s) (Pen.ui m).
Proof.
  intros s. unfold Pen.ui, store. destruct (m (Pen.self s)) as [[r a] t]. reflexivity.
Qed.

Lemma listener_keeps_interval (rs : Client -> ReadyState) (rect : Pen.DOMRect)
    (i : Pen.Input) :
  negb (is_WsOpen i) = true ->
  relates (fun s (_ : list Pen.Action) s' =>
             Pen.heartbeatInterval s' = Pen.heartbeatInterval s)
          (Pen.listener JSON_parse JSON_stringify rs rect i).
Proof.
  intros Hi.
  destruct i; try discriminate Hi;
    unfold Pen.listener, Pen.startDrawing, Pen.draw, Pen.stopDrawing,
    Pen.handleTouch, Pen.on_color_change, Pen.on_brush_input, Pen.on_clear_click,
    Pen.onmessage, Pen.onclose, Pen.onerror, Pen.heartbeat_tick,
    Pen.connectWebSocket, Pen.updateConnectionStatus,
    Pen.stopHeartbeat, Pen.startDrawing, Pen.draw, Pen.stopDrawing, Pen.sendMessage,
    Pen.log;
    relate_with (fun s (_ : list Pen.Action) s' =>
                   Pen.heartbeatInterval s' = Pen.heartbeatInterval s)
                hb_nil hb_app
                ltac:(first [ apply hb_emit
                            | apply hb_modify; intros; reflexivity
                            | apply hb_ui ]).
Qed.

(** X21.  The heartbeat does not outlive its connection: the interval
    started when a socket opens is cleared when the close event arrives,
    whatever the page did in between (as long as no other socket opened),
    and the close always schedules one reconnect 3000 ms later. *)
Theorem heartbeat_cleared_on_close (id : nat)
    (rs rs' : Client -> ReadyState) (rect rect' : Pen.DOMRect)
    (between : list ((Client -> ReadyState) * Pen.DOMRect * Pen.Input))
    (s : Pen.State) :
  id <> 0 ->
  forallb (fun x => negb (is_WsOpen (snd x))) between = true ->
  In (Pen.ClearInterval id)
     (snd (Pen.run JSON_parse JSON_stringify
             ((rs, rect, Pen.WsOpen id) :: between ++ [(rs', rect', Pen.WsClose)]) s))
  /\ In (Pen.SetTimeout 3000)
        (snd (Pen.run JSON_parse JSON_stringify
                ((rs, rect, Pen.WsOpen id) :: between ++ [(rs', rect', Pen.WsClose)]) s)).
Proof.
  intros Hid Hbetween.
  change ((rs, rect, Pen.WsOpen id) :: between ++ [(rs', rect', Pen.WsClose)])
    with ([(rs, rect, Pen.WsOpen id)] ++ between ++ [(rs', rect', Pen.WsClose)]).
  rewrite !run_app. cbn [fst snd].
  set (s1 := fst (Pen.run JSON_parse JSON_stringify [(rs, rect, Pen.WsOpen id)] s)).
  assert (H1 : Pen.heartbeatInterval s1 = Some id) by reflexivity.
  set (s2 := fst (Pen.run JSON_parse JSON_stringify between s1)).
  assert (H2 : Pen.heartbeatInterval s2 = Some id).
  { rewrite <- H1. subst s2.
    apply (run_relates JSON_parse JSON_stringify
             (fun s (_ : list Pen.Action) s' =>
                Pen.heartbeatInterval s' = Pen.heartbeatInterval s)
             (fun i => negb (is_WsOpen i)) hb_nil hb_app).
    - intros r0 c0 i Hi. apply listener_keeps_interval. exact Hi.
    - exact Hbetween. }
  assert (Hclose : snd (Pen.run JSON_parse JSON_stringify [(rs', rect', Pen.WsClose)] s2)
                   = [Pen.Ui (App.Log "❌ Disconnected from WebSocket server" []);
                      Pen.SetTextContent "connection-status" (JSString "Disconnected");
                      Pen.SetClassName "connection-status" "disconnected";
                      Pen.Ui (App.Log "Stopping heartbeat" []);
                      Pen.ClearInterval id;
                      Pen.Ui (App.Log "Will attempt to reconnect in 3 seconds..." []);
                      Pen.SetTimeout 3000]).
  { cbn [Pen.run Pen.listener]. unfold Pen.onclose, Pen.stopHeartbeat, Pen.log,
      Pen.updateConnectionStatus, bind, emit, gets. cbv iota beta. rewrite H2.
    unfold Pen.interval_set. destruct (Nat.eqb_spec id 0) as [E | _]; [contradiction|].
    reflexivity. }
  rewrite Hclose. split; apply in_or_app; right; apply in_or_app; right; simpl; tauto.
Qed.
End PageLifecycle.

(** ** From one page through the relay to the others *)

Lemma handleMessage_draw_payload (s : Pen.State) (pos : JSValue * JSValue)
    (now : spec_float) (app : App.DrawingApp) :
  App.handleMessage (draw_payload (Pen.drawData s pos now)) app
  = (Normal tt, app,
     if (negb (App.clientId (Pen.self s) =? "")
         && (App.clientId (Pen.self s) =? App.clientId app))%string
     then []
     else segment_calls (Pen.lastX s) (Pen.lastY s) (fst pos) (snd pos)
                        (Pen.currentColor s) (Pen.currentSize s)).
Proof.
  unfold App.handleMessage, draw_payload, Pen.drawData, bind, lift, gets.
  cbn [get_prop own_property String.eqb Ascii.eqb Bool.eqb strict_eq_string ToBoolean].
  destruct (App.clientId (Pen.self s) =? "")%string;
    destruct (App.clientId (Pen.self s) =? App.clientId app)%string; reflexivity.
Qed.

(** X22.  Echo suppression works by the id alone.  A page that gets back
    the draw message it sent draws nothing, provided its clientId is not
    the empty string; with an empty clientId it draws its own segment a
    second time.  Any page whose clientId differs draws exactly the segment
    the sender drew locally. *)
Theorem own_echo_is_suppressed (s : Pen.State) (pos : JSValue * JSValue)
    (now : spec_float) :
  (App.clientId (Pen.self s) <> "" ->
   App.handleMessage (draw_payload (Pen.drawData s pos now)) (Pen.self s)
   = (Normal tt, Pen.self s, []))
  /\ (App.clientId (Pen.self s) = "" ->
      App.handleMessage (draw_payload (Pen.drawData s pos now)) (Pen.self s)
      = (Normal tt, Pen.self s,
         segment_calls (Pen.lastX s) (Pen.lastY s) (fst pos) (snd pos)
                       (Pen.currentColor s) (Pen.currentSize s)))
  /\ (forall other,
        App.clientId other <> App.clientId (Pen.self s) ->
        App.handleMessage (draw_payload (Pen.drawData s pos now)) other
        = (Normal tt, other,
           segment_calls (Pen.lastX s) (Pen.lastY s) (fst pos) (snd pos)
                         (Pen.currentColor s) (Pen.currentSize s))).
Proof.
  split; [|split].
  - intros Hne. rewrite handleMessage_draw_payload, String.eqb_refl.
    apply String.eqb_neq in Hne. rewrite Hne. reflexivity.
  - intros Hempty. rewrite handleMessage_draw_payload, Hempty. reflexivity.
  - intros other Hne. rewrite handleMessage_draw_payload.
    assert (Hneq : (App.clientId (Pen.self s) =? App.clientId other)%string = false).
    { apply String.eqb_neq. congruence. }
    rewrite Hneq, andb_false_r. reflexivity.
Qed.

Section EndToEnd.
Variable JSON_parse : string -> option JSValue.
Variable JSON_stringify : JSValue -> string.


(** X24.  One heartbeat round.  A tick on an open socket sends one ping
    frame (and counts it as a message); if the frame parses back to the
    ping, the relay answers with one pong to that socket alone and changes
    nothing; and the page, on a frame that parses to the pong, writes one
    console line and does nothing else, so the exchange ends there. *)
Theorem heartbeat_round_trip (rsA rsS : Client -> ReadyState) (s s' : Pen.State)
    (w ws : Client) (h : Heap) :
  open_socket rsA s = Some w ->
  JSON_parse (JSON_stringify ping_payload) = Some ping_payload ->
  JSON_parse (JSON_stringify pong_message) = Some pong_message ->
  filter Pen.is_SocketSend (trace (Pen.heartbeat_tick JSON_stringify rsA s))
  = [Pen.SocketSend w (JSON_stringify ping_payload)]
  /\ Pen.messageCount (store (Pen.heartbeat_tick JSON_stringify rsA s))
     = Pen.messageCount s + 1
  /\ on_message JSON_parse JSON_stringify rsS ws (JSON_stringify ping_payload) h
     = (Normal tt, h,
        [Stringify pong_message; WsSend ws (JSON_stringify pong_message)])
  /\ Pen.onmessage JSON_parse (JSON_stringify pong_message) s'
     = (Normal tt, s', [Pen.Ui (App.Log "Heartbeat response received" [])]).
Proof.
  intros Hopen Hping Hpong.
  split; [|split; [|split]].
  - unfold Pen.heartbeat_tick, bind. rewrite sendMessage_run, Hopen. reflexivity.
  - unfold Pen.heartbeat_tick, bind. rewrite sendMessage_run, Hopen. reflexivity.
  - apply (on_message_decoded JSON_parse JSON_stringify rsS ws _ ping_payload);
      [exact Hping|].
    apply dispatch_ping. reflexivity.
  - unfold Pen.onmessage. rewrite Hpong.
    rewrite (ui_run _ s' (handleMessage_keeps_this _)). reflexivity.
Qed.

(** X25.  The clear button.  The page clears its own canvas at once,
    connected or not.  If its socket is open and the frame parses back to
    the clear message, the relay empties the log and hands the frame to
    every open member, and each page that receives it clears its canvas
    (the sender included, a second time). *)
Theorem clear_click_clears_everywhere (rsA rsS : Client -> ReadyState)
    (sA sB : Pen.State) (ws b : Client) (h : Heap) :
  JSON_parse (JSON_stringify clear_payload) = Some clear_payload ->
  In b (clients h) -> rsS b = OPEN ->
  Pen.canvas_calls (trace (Pen.on_clear_click JSON_stringify rsA sA)) = [App.CtxClearRect]
  /\ filter Pen.is_SocketSend (trace (Pen.on_clear_click JSON_stringify rsA sA))
     = match open_socket rsA sA with
       | Some w => [Pen.SocketSend w (JSON_stringify clear_payload)]
       | None => []
       end
  /\ drawingHistory
       (store (on_message JSON_parse JSON_stringify rsS ws
                 (JSON_stringify clear_payload) h)) = []
  /\ In (WsSend b (JSON_stringify clear_payload))
        (trace (on_message JSON_parse JSON_stringify rsS ws
                  (JSON_stringify clear_payload) h))
  /\ Pen.canvas_calls (trace (Pen.onmessage JSON_parse (JSON_stringify clear_payload) sB))
     = [App.CtxClearRect].
Proof.
  intros Hcodec Hin Hb.
  assert (Hclick : trace (Pen.on_clear_click JSON_stringify rsA sA)
                   = [Pen.Ui (App.Log "Clear button clicked" []);
                      Pen.Ui App.CtxClearRect;
                      Pen.Ui (App.Log "Canvas cleared" [])]
                     ++ trace (Pen.sendMessage JSON_stringify rsA clear_payload sA)).
  { unfold Pen.on_clear_click, bind at 1, Pen.log, emit at 1. cbv iota beta.
    unfold bind at 1. rewrite (ui_run App.clearCanvas sA clearCanvas_keeps_this).
    unfold result, trace. cbn [fst snd].
    change (App.clearCanvas (Pen.self sA))
      with (Normal tt, Pen.self sA, [App.CtxClearRect; App.Log "Canvas cleared" []]).
    cbn [fst snd map].
    destruct (Pen.sendMessage JSON_stringify rsA
                (JSObject [("type", JSString "clear")]) sA) as [[r s1] t1] eqn:E.
    unfold clear_payload. rewrite E. reflexivity. }
  assert (Hrelay : on_message JSON_parse JSON_stringify rsS ws
                     (JSON_stringify clear_payload) h
                   = (Normal tt, set_history (fun _ => []) h,
                      Stringify clear_payload
                      :: fan_out rsS (JSON_stringify clear_payload) (clients h))).
  { apply (on_message_decoded JSON_parse JSON_stringify rsS ws _ clear_payload);
      [exact Hcodec|].
    apply dispatch_clear. reflexivity. }
  split; [|split; [|split; [|split]]].
  - rewrite Hclick, canvas_calls_app, canvas_calls_sendMessage. reflexivity.
  - rewrite Hclick, filter_app, sendMessage_run.
    destruct (open_socket rsA sA); reflexivity.
  - rewrite Hrelay. reflexivity.
  - rewrite Hrelay. unfold trace. cbn [snd]. right. apply fan_out_In. auto.
  - unfold Pen.onmessage. rewrite Hcodec.
    rewrite (ui_run _ sB (handleMessage_keeps_this _)). reflexivity.
Qed.
End EndToEnd.

(** ** The further theorems at work on concrete runs *)

Lemma history_stays_bounded_witness :
  List.length (drawingHistory two_members_one_segment) <= MAX_HISTORY
  /\ List.length
       (drawingHistory
          (store (run read show
                    [(all_open, Message 1 draw_frame); (two_closing, Close 2);
                     (all_open, Message 1 draw_frame)] two_members_one_segment)))
     <= MAX_HISTORY.
Proof.
  assert (H : List.length (drawingHistory two_members_one_segment) <= MAX_HISTORY).
  { unfold MAX_HISTORY. simpl. lia. }
  split; [exact H|].
  apply (history_stays_bounded read show _ two_members_one_segment H).
Defined.

Lemma registry_stays_duplicate_free_witness :
  NoDup (clients startup)
  /\ NoDup (clients (store (run read show
                              [(all_open, Connection 1); (all_open, Connection 2);
                               (all_open, Connection 1); (all_open, Close 2)] startup))).
Proof.
  split; [constructor|].
  apply (registry_stays_duplicate_free read show _ startup). constructor.
Defined.

Lemma sends_go_to_registered_sockets_witness :
  In (WsSend 1 (show (userCount_message 3)))
     (trace (handle read show all_open (Connection 3) two_members))
  /\ (In 1 (clients (store (handle read show all_open (Connection 3) two_members)))
      \/ exists frame, Connection 3 = Message 1 frame
                       /\ show (userCount_message 3) = show pong_message).
Proof.
  assert (H : In (WsSend 1 (show (userCount_message 3)))
                 (trace (handle read show all_open (Connection 3) two_members))).
  { simpl. tauto. }
  split; [exact H|].
  apply (sends_go_to_registered_sockets read show all_open (Connection 3) two_members
           1 (show (userCount_message 3)) H).
Defined.

Lemma broadcast_delivers_exactly_once_witness :
  NoDup (clients two_members)
  /\ sends_to 1 (trace (broadcastToAll show two_closing clear_message two_members)) = 1
  /\ sends_to 2 (trace (broadcastToAll show two_closing clear_message two_members)) = 0.
Proof.
  assert (H : NoDup (clients two_members)).
  { repeat constructor; simpl; intuition discriminate. }
  split; [exact H | split].
  - apply (broadcast_delivers_exactly_once show two_closing clear_message two_members 1 H).
  - apply (broadcast_delivers_exactly_once show two_closing clear_message two_members 2 H).
Defined.

Lemma connect_then_close_restores_registry_witness :
  ~ In 3 (clients two_members)
  /\ clients (store (on_close show all_open 3
                       (store (run read show
                                 (map (fun i => (fst (fst i), Message (snd (fst i)) (snd i)))
                                      [(all_open, 3, draw_frame)])
                                 (store (on_connection show all_open 3 two_members))))))
     = clients two_members.
Proof.
  assert (H : ~ In 3 (clients two_members)).
  { simpl. intuition discriminate. }
  split; [exact H|].
  apply (connect_then_close_restores_registry read show all_open all_open 3
           [(all_open, 3, draw_frame)] two_members H).
Defined.

Lemma userCount_moves_by_one_witness :
  NoDup (clients two_members)
  /\ In (Stringify (JSObject [("type", JSString "userCount");
                              ("count", JSNumber (number_of_nat 3))]))
        (trace (on_connection show all_open 3 two_members))
  /\ In (Stringify (JSObject [("type", JSString "userCount");
                              ("count", JSNumber (number_of_nat 1))]))
        (trace (on_close show all_open 2 two_members)).
Proof.
  assert (H : NoDup (clients two_members)).
  { repeat constructor; simpl; intuition discriminate. }
  split; [exact H|].
  destruct (userCount_moves_by_one show all_open 3 two_members H) as [Hnew _].
  destruct (userCount_moves_by_one show all_open 2 two_members H) as [_ [Hold _]].
  split.
  - apply Hnew. simpl. intuition discriminate.
  - apply Hold. simpl. auto.
Defined.

Lemma newcomer_is_replayed_last_events_witness :
  In (WsSend 2 (show (JSObject [("type", JSString "history");
                                ("data", JSArray [segment "a"; segment "b"])])))
     (trace (on_connection show all_open 2
               (store (run read show
                         (map (fun i => (fst (fst i), Message (snd (fst i)) (snd i)))
                              [(all_open, 1, draw_frame);
                               (all_open, 1, show (draw_message (segment "b")))])
                         startup)))).
Proof.
  apply (newcomer_is_replayed_last_events read show all_open 2
           [(all_open, 1, draw_frame); (all_open, 1, show (draw_message (segment "b")))]
           [segment "a"; segment "b"] startup).
  - reflexivity.
  - discriminate.
  - constructor; [|constructor; [|constructor]].
    + exists (draw_message (segment "a")). repeat split; reflexivity.
    + exists (draw_message (segment "b")). repeat split; reflexivity.
Defined.

Lemma draw_without_data_logs_undefined_witness :
  read_also bare_draw (show bare_draw) = Some bare_draw
  /\ drawingHistory
       (store (on_message (read_also bare_draw) show all_open 1 (show bare_draw)
                 two_members_one_segment))
     = [segment "a"; JSUndefined].
Proof.
  split; [reflexivity|].
  rewrite (draw_without_data_logs_undefined (read_also bare_draw) show all_open 1
             (show bare_draw) [("type", JSString "draw")] two_members_one_segment
             eq_refl eq_refl).
  - reflexivity.
  - intros v [H | []]. discriminate H.
Defined.


Lemma draw_renders_locally_sends_if_open_witness :
  Pen.isDrawing (pen_at_origin "a") = true
  /\ filter Pen.is_SocketSend
       (trace (Pen.draw show two_closing origin_rect (click_at 3 4) (number_of_Z 7)
                 (Pen.set_ws (Some 2) (pen_at_origin "a"))))
     = []
  /\ Pen.canvas_calls
       (trace (Pen.draw show two_closing origin_rect (click_at 3 4) (number_of_Z 7)
                 (Pen.set_ws (Some 2) (pen_at_origin "a"))))
     = segment_calls (JSNumber (number_of_Z 0)) (JSNumber (number_of_Z 0))
                     (JSNumber (number_of_Z 3)) (JSNumber (number_of_Z 4))
                     (JSString "#000000") (JSNumber (number_of_Z 3)).
Proof.
  split; [reflexivity|].
  destruct (draw_renders_locally_sends_if_open show two_closing origin_rect (click_at 3 4)
              (number_of_Z 7) (Pen.set_ws (Some 2) (pen_at_origin "a")) eq_refl)
    as [Hcanvas [_ [_ Hsend]]].
  split; [exact Hsend | exact Hcanvas].
Defined.

Lemma heartbeat_cleared_on_close_witness :
  In (Pen.ClearInterval 5)
     (snd (Pen.run read show
             ((all_open, origin_rect, Pen.WsOpen 5)
              :: [(all_open, origin_rect, Pen.HeartbeatTick);
                  (all_open, origin_rect, Pen.WsMessage (show pong_message))]
              ++ [(all_open, origin_rect, Pen.WsClose)])
             (Pen.constructed "a"))).
Proof.
  apply (heartbeat_cleared_on_close read show 5 all_open all_open origin_rect origin_rect
           [(all_open, origin_rect, Pen.HeartbeatTick);
            (all_open, origin_rect, Pen.WsMessage (show pong_message))]
           (Pen.constructed "a")).
  - discriminate.
  - reflexivity.
Defined.


Lemma heartbeat_round_trip_witness :
  on_message (read_also pong_message) show all_open 1 (show ping_payload) two_members
  = (Normal tt, two_members, [Stringify pong_message; WsSend 1 (show pong_message)])
  /\ Pen.onmessage (read_also pong_message) (show pong_message) (pen_at_origin "a")
     = (Normal tt, pen_at_origin "a",
        [Pen.Ui (App.Log "Heartbeat response received" [])]).
Proof.
  destruct (heartbeat_round_trip (read_also pong_message) show all_open all_open
              (pen_at_origin "a") (pen_at_origin "a") 1 1 two_members
              eq_refl eq_refl eq_refl)
    as [_ [_ [Hrelay Hpage]]].
  split; [exact Hrelay | exact Hpage].
Defined.

Lemma clear_click_clears_everywhere_witness :
  drawingHistory
    (store (on_message read show all_open 1 (show clear_payload)
              two_members_one_segment)) = []
  /\ Pen.canvas_calls (trace (Pen.onmessage read (show clear_payload) (pen_at_origin "b")))
     = [App.CtxClearRect].
Proof.
  destruct (clear_click_clears_everywhere read show all_open all_open
              (pen_at_origin "a") (pen_at_origin "b") 1 2 two_members_one_segment)
    as [_ [_ [Hlog [_ Hpage]]]].
  - reflexivity.
  - simpl. auto.
  - reflexivity.
  - split; [exact Hlog | exact Hpage].
Defined.
